(** * Agent_FOR_K8s: the create-deployment tool of [myagent.py]

    A shallow embedding of the three functions of [myagent.py] that do the
    work of the agent's only tool:

    - [generate_deployment_yaml], which builds the Deployment dictionary and
      hands it to [yaml.dump];
    - [apply_yaml], which writes the text to a temporary file, runs
      [kubectl apply -f] on it and deletes the file;
    - [CreateDeploymentTool._run], which parses the tool input in one of
      three textual formats and chains the two helpers;

    and of the command loop of the program, which reads lines, hands them to
    the agent and stops at [exit] or [quit].

    Python values are an inductive type, Python exceptions a sum type, and
    Python functions with effects are computations in a small state and
    error monad over a world made of the file system, the cluster behind
    [kubectl] and the list of processes spawned so far.

    The texts the program reads are modelled by [string]: sequences of code
    points below 256.  The library functions the tool calls on them
    ([json.loads], [re.search] with the three patterns of the source,
    [str.split], [int], [in]) are modelled on that alphabet; a string that
    [json.loads] returns can hold any code point. *)

From Stdlib Require Import ZArith Ascii String.
From stdpp Require Import base option list strings pretty gmap stringmap.

Set Warnings "-register-all".
Local Open Scope string_scope.
Local Open Scope Z_scope.

(** ** Python values and exceptions *)

(** A value of Python's [str].  A text in the alphabet of the model is
    [Latin]; a text with a code point above 255, which only an escape
    [\uXXXX] of a JSON text can bring in, is [Wide]: the list of its code
    points.  The decoder makes a [Wide] text only when there is a code
    point above 255 ([scanstring_well_formed]), so a [Wide] and a [Latin]
    text are never equal. *)
Inductive pystr : Type :=
| Latin (s : string)
| Wide (codes : list N).

Coercion Latin : string >-> pystr.

(** The values [json.loads] can return, which are also the values the
    Deployment dictionary is built from.  A dictionary keeps its keys in
    insertion order; all keys of this program are strings.  A float keeps
    the text of its literal. *)
Inductive pyval : Type :=
| PyNone
| PyBool (b : bool)
| PyInt (z : Z)
| PyFloat (literal : string)
| PyStr (s : pystr)
| PyList (items : list pyval)
| PyDict (pairs : list (pystr * pyval)).

(** The exceptions that can leave the tool. *)
Inductive exn : Type :=
| AttributeError
| ValueError (msg : string)
| FileNotFoundError.

Inductive result (A : Type) : Type :=
| Ok (a : A)
| Raise (e : exn).
Arguments Ok {A} a.
Arguments Raise {A} e.

Definition result_bind {A B} (r : result A) (k : A -> result B) : result B :=
  match r with
  | Ok a => k a
  | Raise e => Raise e
  end.

(** ** Dictionaries *)

Fixpoint codes_eqb (l m : list N) : bool :=
  match l, m with
  | [], [] => true
  | a :: l', b :: m' => (a =? b)%N && codes_eqb l' m'
  | _, _ => false
  end.

(** [a == b] on strings. *)
Definition pystr_eqb (a b : pystr) : bool :=
  match a, b with
  | Latin s, Latin t => String.eqb s t
  | Wide l, Wide m => codes_eqb l m
  | _, _ => false
  end.

(** [d.get(k)], on the pairs of a dictionary. *)
Fixpoint dict_lookup (k : pystr) (d : list (pystr * pyval)) : option pyval :=
  match d with
  | [] => None
  | (k', v) :: d' => if pystr_eqb k k' then Some v else dict_lookup k d'
  end.

(** [d[k] = v]: an existing key keeps its place, a new key goes last. *)
Fixpoint dict_set (k : pystr) (v : pyval) (d : list (pystr * pyval))
  : list (pystr * pyval) :=
  match d with
  | [] => [(k, v)]
  | (k', v') :: d' =>
      if pystr_eqb k k' then (k, v) :: d' else (k', v') :: dict_set k v d'
  end.

(** [dict(pairs)]. *)
Definition dict_of_pairs (ps : list (pystr * pyval)) : list (pystr * pyval) :=
  fold_left (fun d kv => dict_set (fst kv) (snd kv) d) ps [].

(** A dictionary display [{k: v, ...}] whose keys are texts of the program,
    all different. *)
Definition py_dict (pairs : list (string * pyval)) : pyval :=
  PyDict (map (fun kv => (Latin (fst kv), snd kv)) pairs).

(** [data.get(key, default)] on an arbitrary value: only a dictionary has
    the attribute [get]. *)
Definition py_get (data : pyval) (key : pystr) (default : pyval) : result pyval :=
  match data with
  | PyDict d =>
      Ok (match dict_lookup key d with Some v => v | None => default end)
  | _ => Raise AttributeError
  end.

(** Reading a value along a path of keys (for statements about manifests). *)
Definition field (k : pystr) (v : pyval) : option pyval :=
  match v with
  | PyDict d => dict_lookup k d
  | _ => None
  end.

Fixpoint at_path (ks : list string) (v : pyval) : option pyval :=
  match ks with
  | [] => Some v
  | k :: ks' => match field k v with Some v' => at_path ks' v' | None => None end
  end.

(** ** Characters and strings *)

Definition code (c : ascii) : N := N_of_ascii c.

(** [str.isspace], which is also the class [\s] of [re] on [str]. *)
Definition isspace (c : ascii) : bool :=
  let n := code c in
  ((9 <=? n) && (n <=? 13) || (28 <=? n) && (n <=? 32)
   || (n =? 133) || (n =? 160))%N.

(** The class [\d] of [re] on [str] (the decimal digits below 256). *)
Definition isdigit (c : ascii) : bool :=
  let n := code c in ((48 <=? n) && (n <=? 57))%N.

Definition digit_value (c : ascii) : Z := Z.of_N (code c) - 48.

(** The class [[^,\s]]. *)
Definition not_comma_space (c : ascii) : bool :=
  negb (Ascii.eqb c ",") && negb (isspace c).

(** [c in s]. *)
Fixpoint contains (c : ascii) (s : string) : bool :=
  match s with
  | EmptyString => false
  | String c' s' => Ascii.eqb c c' || contains c s'
  end.

(** The longest prefix of [s] in the class [p]. *)
Fixpoint take_while (p : ascii -> bool) (s : string) : string :=
  match s with
  | EmptyString => EmptyString
  | String c s' => if p c then String c (take_while p s') else EmptyString
  end.

Fixpoint drop_while (p : ascii -> bool) (s : string) : string :=
  match s with
  | EmptyString => EmptyString
  | String c s' => if p c then drop_while p s' else s
  end.

(** Every character of [s] is in the class [p]. *)
Fixpoint all_in (p : ascii -> bool) (s : string) : bool :=
  match s with
  | EmptyString => true
  | String c s' => p c && all_in p s'
  end.

(** [Some rest] when [s] is [lit] followed by [rest]. *)
Fixpoint strip_prefix (lit s : string) : option string :=
  match lit, s with
  | EmptyString, _ => Some s
  | String a lit', String b s' =>
      if Ascii.eqb a b then strip_prefix lit' s' else None
  | String _ _, EmptyString => None
  end.

(** ** [re.search] for the patterns of the tool

    The three patterns of the source have the shape [lit(cls+)]: a literal,
    then a greedy group of one or more characters of one class, and nothing
    after the group.  [match_here] is a match anchored at the start of [s];
    [re_search] scans for the leftmost position with a match and returns
    [group(1)]. *)
Definition match_here (lit : string) (cls : ascii -> bool) (s : string)
  : option string :=
  match strip_prefix lit s with
  | Some rest =>
      match take_while cls rest with
      | EmptyString => None
      | g => Some g
      end
  | None => None
  end.

Fixpoint re_search (lit : string) (cls : ascii -> bool) (s : string)
  : option string :=
  match match_here lit cls s with
  | Some g => Some g
  | None =>
      match s with
      | EmptyString => None
      | String _ s' => re_search lit cls s'
      end
  end.

(** ** [str.split()] with no argument: the maximal runs of characters that
    are not white space. *)
Fixpoint split_from (cur : string) (s : string) : list string :=
  match s with
  | EmptyString => match cur with EmptyString => [] | _ => [cur] end
  | String c s' =>
      if isspace c then
        match cur with
        | EmptyString => split_from EmptyString s'
        | _ => cur :: split_from EmptyString s'
        end
      else split_from (cur +:+ String c EmptyString) s'
  end.

Definition py_split (s : string) : list string := split_from EmptyString s.

(** ** [int(s)] on a string, base 10

    White space around the literal is dropped, one sign is allowed, and
    single underscores may separate digits.  A literal of more digits than
    the interpreter converts is refused, with [ValueError] like any other
    text that is not a literal; of the message only these two texts are
    modelled. *)
Fixpoint rstrip (s : string) : string :=
  match s with
  | EmptyString => EmptyString
  | String c r =>
      match rstrip r with
      | EmptyString => if isspace c then EmptyString else String c EmptyString
      | r' => String c r'
      end
  end.

Definition py_strip (s : string) : string := rstrip (drop_while isspace s).

(** The digits after a first digit, with the value read so far. *)
Fixpoint int_digits (acc : Z) (s : string) : option Z :=
  match s with
  | EmptyString => Some acc
  | String c r =>
      if isdigit c then int_digits (10 * acc + digit_value c) r
      else if Ascii.eqb c "_" then
        match r with
        | String c' r' =>
            if isdigit c' then int_digits (10 * acc + digit_value c') r'
            else None
        | EmptyString => None
        end
      else None
  end.

Definition int_literal (s : string) : option Z :=
  match s with
  | String c r => if isdigit c then int_digits (digit_value c) r else None
  | EmptyString => None
  end.

(** The most digits [int] converts: [sys.int_info.default_max_str_digits]
    of CPython 3.11 and later.  Signs and underscores do not count, leading
    zeros do. *)
Definition int_max_str_digits : nat := 4300.

Fixpoint count_digits (s : string) : nat :=
  match s with
  | EmptyString => O
  | String c r => ((if isdigit c then 1 else 0) + count_digits r)%nat
  end.

Definition py_int (s : string) : result Z :=
  let t := py_strip s in
  let '(negative, body) :=
    match t with
    | String "-" r => (true, r)
    | String "+" r => (false, r)
    | _ => (false, t)
    end in
  match int_literal body with
  | Some n =>
      if (count_digits body <=? int_max_str_digits)%nat
      then Ok (if negative then - n else n)
      else Raise (ValueError
             "Exceeds the limit (4300 digits) for integer string conversion")
  | None => Raise (ValueError "invalid literal for int() with base 10")
  end.

(** ** [str.lower], on the alphabet of the model: the letters A to Z and
    the capital letters from 192 to 222, the multiplication sign apart, move
    up by 32. *)
Definition lower_char (c : ascii) : ascii :=
  let n := code c in
  if ((65 <=? n) && (n <=? 90)
      || (192 <=? n) && (n <=? 222) && negb (n =? 215))%N
  then ascii_of_N (n + 32)
  else c.

Fixpoint py_lower (s : string) : string :=
  match s with
  | EmptyString => EmptyString
  | String c s' => String (lower_char c) (py_lower s')
  end.

(** ** [json.loads]

    The decoder of Python's [json] module with its default settings: white
    space is space, tab, line feed and carriage return; a string may not
    hold a raw control character; [NaN], [Infinity] and [-Infinity] are
    accepted; a number without fraction and exponent is an [int]; of two
    equal keys of an object the last one wins; the whole text must be one
    value.  [None] stands for [json.JSONDecodeError].

    The decoder is modelled within the limits of the interpreter.  Beyond
    them [json.loads] raises an exception that is not a
    [json.JSONDecodeError]: [RecursionError] when arrays and objects are
    nested deeper than the stack of the interpreter allows (some hundreds of
    levels, depending on where the call is made), and [ValueError] on a
    number without fraction and exponent of more than [int_max_str_digits]
    digits.  On such texts [json_loads] is what the decoder would return
    without these limits. *)

Definition dquote : ascii := ascii_of_N 34.

(** [dq s] is [s] with every apostrophe replaced by a double quote; JSON
    texts are written with it: [dq "{'name': 'web'}"]. *)
Fixpoint dq (s : string) : string :=
  match s with
  | EmptyString => EmptyString
  | String c s' => String (if Ascii.eqb c "'" then dquote else c) (dq s')
  end.

Definition json_ws (c : ascii) : bool :=
  let n := code c in ((n =? 32) || (n =? 9) || (n =? 10) || (n =? 13))%N.

Definition skip_ws (s : string) : string := drop_while json_ws s.

Definition hex_value (c : ascii) : option N :=
  let n := code c in
  if ((48 <=? n) && (n <=? 57))%N then Some (n - 48)%N
  else if ((65 <=? n) && (n <=? 70))%N then Some (n - 55)%N
  else if ((97 <=? n) && (n <=? 102))%N then Some (n - 87)%N
  else None.

Definition hex4 (a b c d : ascii) : option N :=
  match hex_value a, hex_value b, hex_value c, hex_value d with
  | Some x, Some y, Some z, Some t => Some (((x * 16 + y) * 16 + z) * 16 + t)%N
  | _, _, _, _ => None
  end.

Definition escape_char (e : ascii) : option ascii :=
  if Ascii.eqb e dquote then Some dquote
  else match e with
       | "\"%char => Some "\"%char
       | "/"%char => Some "/"%char
       | "b"%char => Some (ascii_of_N 8)
       | "f"%char => Some (ascii_of_N 12)
       | "n"%char => Some (ascii_of_N 10)
       | "r"%char => Some (ascii_of_N 13)
       | "t"%char => Some (ascii_of_N 9)
       | _ => None
       end.

Fixpoint str_codes (s : string) : list N :=
  match s with
  | EmptyString => []
  | String c r => code c :: str_codes r
  end.

(** A text with one more character, and with one more code point. *)
Definition push_char (acc : pystr) (c : ascii) : pystr :=
  match acc with
  | Latin s => Latin (s +:+ String c EmptyString)
  | Wide l => Wide (l ++ [code c])%list
  end.

Definition push_code (acc : pystr) (n : N) : pystr :=
  if (n <? 256)%N then push_char acc (ascii_of_N n)
  else Wide (match acc with Latin s => str_codes s | Wide l => l end ++ [n])%list.

(** A [Wide] text is well formed when it holds a code point above 255. *)
Definition well_formed (s : pystr) : bool :=
  match s with
  | Latin _ => true
  | Wide l => existsb (fun n => (256 <=? n)%N) l
  end.

Definition is_high_surrogate (n : N) : bool := ((55296 <=? n) && (n <=? 56319))%N.

Definition is_low_surrogate (n : N) : bool := ((56320 <=? n) && (n <=? 57343))%N.

Definition join_surrogates (hi lo : N) : N :=
  (65536 + ((hi - 55296) * 1024 + (lo - 56320)))%N.

(** The rest of a string literal after its opening quote: the decoded
    text and what follows the closing quote.  An escape [\uXXXX] of a high
    surrogate that is followed by the escape of a low surrogate is read
    with it as one code point. *)
Fixpoint scanstring (acc : pystr) (s : string) : option (pystr * string) :=
  match s with
  | EmptyString => None
  | String c r =>
      if Ascii.eqb c dquote then Some (acc, r)
      else if Ascii.eqb c "\" then
        match r with
        | EmptyString => None
        | String e r' =>
            match escape_char e with
            | Some ch => scanstring (push_char acc ch) r'
            | None =>
                if Ascii.eqb e "u" then
                  match r' with
                  | String h1 (String h2 (String h3 (String h4 r''))) =>
                      match hex4 h1 h2 h3 h4 with
                      | Some n =>
                          if is_high_surrogate n then
                            match r'' with
                            | String b (String u (String l1 (String l2
                                (String l3 (String l4 r3))))) =>
                                if Ascii.eqb b "\" && Ascii.eqb u "u" then
                                  match hex4 l1 l2 l3 l4 with
                                  | Some m =>
                                      if is_low_surrogate m
                                      then scanstring
                                             (push_code acc (join_surrogates n m)) r3
                                      else scanstring (push_code acc n) r''
                                  | None => None
                                  end
                                else scanstring (push_code acc n) r''
                            | _ => scanstring (push_code acc n) r''
                            end
                          else scanstring (push_code acc n) r''
                      | None => None
                      end
                  | _ => None
                  end
                else None
            end
        end
      else if (code c <? 32)%N then None
      else scanstring (push_char acc c) r
  end.

(** The characters that stand for themselves in a string literal: not the
    quote, not the backslash, not a control character. *)
Definition json_plain (c : ascii) : bool :=
  negb (Ascii.eqb c dquote) && negb (Ascii.eqb c "\") && negb (code c <? 32)%N.

(** A number at the start of [s], as the decoder's pattern reads it: an
    optional minus sign, then [0] or a digit from 1 to 9 with any digits
    after it; then, optionally, a dot and one or more digits; then,
    optionally, [e] or [E], an optional sign and one or more digits.  Each
    part is returned with the text after it. *)
Definition scan_minus (s : string) : bool * string :=
  match s with
  | String c r => if Ascii.eqb c "-" then (true, r) else (false, s)
  | EmptyString => (false, s)
  end.

Definition scan_int_part (s : string) : option (string * string) :=
  match s with
  | String c r =>
      if isdigit c then
        if Ascii.eqb c "0" then Some (String c EmptyString, r)
        else Some (String c (take_while isdigit r), drop_while isdigit r)
      else None
  | EmptyString => None
  end.

Definition scan_frac (s : string) : string * string :=
  match s with
  | String c r =>
      if Ascii.eqb c "." then
        match take_while isdigit r with
        | EmptyString => (EmptyString, s)
        | ds => (String c ds, drop_while isdigit r)
        end
      else (EmptyString, s)
  | EmptyString => (EmptyString, s)
  end.

Definition scan_sign (s : string) : string * string :=
  match s with
  | String c r =>
      if Ascii.eqb c "+" || Ascii.eqb c "-" then (String c EmptyString, r)
      else (EmptyString, s)
  | EmptyString => (EmptyString, s)
  end.

Definition scan_exp (s : string) : string * string :=
  match s with
  | String e r =>
      if Ascii.eqb e "e" || Ascii.eqb e "E" then
        let '(sg, r') := scan_sign r in
        match take_while isdigit r' with
        | EmptyString => (EmptyString, s)
        | ds => (String e (sg +:+ ds), drop_while isdigit r')
        end
      else (EmptyString, s)
  | EmptyString => (EmptyString, s)
  end.

Definition scan_number (s : string) : option (pyval * string) :=
  let '(negative, s1) := scan_minus s in
  match scan_int_part s1 with
  | Some (ip, r1) =>
      let '(frac, r2) := scan_frac r1 in
      let '(exp, r3) := scan_exp r2 in
      match frac, exp with
      | EmptyString, EmptyString =>
          match int_literal ip with
          | Some n => Some (PyInt (if negative then - n else n), r3)
          | None => None
          end
      | _, _ =>
          Some (PyFloat ((if negative then "-" else "") +:+ ip +:+ frac +:+ exp), r3)
      end
  | None => None
  end.

(** The values that are neither a string, an object nor an array. *)
Definition scan_atom (s : string) : option (pyval * string) :=
  match strip_prefix "null" s with
  | Some r => Some (PyNone, r)
  | None =>
  match strip_prefix "true" s with
  | Some r => Some (PyBool true, r)
  | None =>
  match strip_prefix "false" s with
  | Some r => Some (PyBool false, r)
  | None =>
  match scan_number s with
  | Some vr => Some vr
  | None =>
  match strip_prefix "NaN" s with
  | Some r => Some (PyFloat "NaN", r)
  | None =>
  match strip_prefix "Infinity" s with
  | Some r => Some (PyFloat "Infinity", r)
  | None =>
  match strip_prefix "-Infinity" s with
  | Some r => Some (PyFloat "-Infinity", r)
  | None => None
  end end end end end end end.

(** [scan_once] reads one value at the start of [s].  [JSONArray] reads the
    items of an array from its first item on, [JSONObject] the members of an
    object from the text after the opening quote of a key.  Every call uses
    one unit of [fuel]. *)
Fixpoint scan_once (fuel : nat) (s : string) : option (pyval * string) :=
  match fuel with
  | O => None
  | S f =>
      match s with
      | String c r =>
          if Ascii.eqb c dquote then
            match scanstring EmptyString r with
            | Some (k, r') => Some (PyStr k, r')
            | None => None
            end
          else if Ascii.eqb c "{" then
            match skip_ws r with
            | String c' r' =>
                if Ascii.eqb c' "}" then Some (PyDict [], r')
                else if Ascii.eqb c' dquote then JSONObject f [] r'
                else None
            | EmptyString => None
            end
          else if Ascii.eqb c "[" then
            match skip_ws r with
            | String c' r' =>
                if Ascii.eqb c' "]" then Some (PyList [], r')
                else JSONArray f [] (String c' r')
            | EmptyString => JSONArray f [] EmptyString
            end
          else scan_atom s
      | EmptyString => None
      end
  end
with JSONArray (fuel : nat) (values : list pyval) (s : string)
  : option (pyval * string) :=
  match fuel with
  | O => None
  | S f =>
      match scan_once f s with
      | Some (v, r) =>
          match skip_ws r with
          | String c r' =>
              if Ascii.eqb c "]" then Some (PyList (values ++ [v])%list, r')
              else if Ascii.eqb c ","
              then JSONArray f (values ++ [v])%list (skip_ws r')
              else None
          | EmptyString => None
          end
      | None => None
      end
  end
with JSONObject (fuel : nat) (pairs : list (pystr * pyval)) (s : string)
  : option (pyval * string) :=
  match fuel with
  | O => None
  | S f =>
      match scanstring EmptyString s with
      | Some (k, r) =>
          match skip_ws r with
          | String c r1 =>
              if Ascii.eqb c ":" then
                match scan_once f (skip_ws r1) with
                | Some (v, r2) =>
                    match skip_ws r2 with
                    | String c' r3 =>
                        if Ascii.eqb c' "}" then
                          Some (PyDict (dict_of_pairs (pairs ++ [(k, v)])%list), r3)
                        else if Ascii.eqb c' "," then
                          match skip_ws r3 with
                          | String c'' r4 =>
                              if Ascii.eqb c'' dquote
                              then JSONObject f (pairs ++ [(k, v)])%list r4
                              else None
                          | EmptyString => None
                          end
                        else None
                    | EmptyString => None
                    end
                | None => None
                end
              else None
          | EmptyString => None
          end
      | None => None
      end
  end.

(** [json.loads(s)]: one value between optional white space.  The fuel is
    enough for every text ([json_loads_fuel]). *)
Definition json_loads (s : string) : option pyval :=
  match scan_once (2 * String.length s + 2) (skip_ws s) with
  | Some (v, r) =>
      match skip_ws r with
      | EmptyString => Some v
      | _ => None
      end
  | None => None
  end.

(** ** The Deployment dictionary *)

(** The dictionary literal of [generate_deployment_yaml], keys in the order
    of the source. *)
Definition deployment (name image replicas namespace port : pyval) : pyval :=
  py_dict
    [("apiVersion", PyStr "apps/v1");
     ("kind", PyStr "Deployment");
     ("metadata", py_dict [("name", name); ("namespace", namespace)]);
     ("spec", py_dict
        [("replicas", replicas);
         ("selector", py_dict [("matchLabels", py_dict [("app", name)])]);
         ("template", py_dict
            [("metadata", py_dict [("labels", py_dict [("app", name)])]);
             ("spec", py_dict
                [("containers", PyList
                    [py_dict
                       [("name", name);
                        ("image", image);
                        ("ports", PyList [py_dict [("containerPort", port)]])]])])])])].

(** ** Parsing the tool input

    The [try] statement of [CreateDeploymentTool._run]: the values bound to
    [name], [image] and [replicas] when control reaches the call of
    [generate_deployment_yaml], or the exception that leaves [_run].  The
    handler catches [json.JSONDecodeError] only, so an exception of
    [data.get] is not caught. *)
Definition parse_tool_input (tool_input : string)
  : result (pyval * pyval * pyval) :=
  match json_loads tool_input with
  | Some data =>
      (* data = json.loads(tool_input) *)
      result_bind (py_get data "name" PyNone) (fun name =>
      result_bind (py_get data "image" PyNone) (fun image =>
      result_bind (py_get data "replicas" (PyInt 1)) (fun replicas =>
      Ok (name, image, replicas))))
  | None =>
      (* except json.JSONDecodeError *)
      if contains "=" tool_input then
        let name_match := re_search "name=" not_comma_space tool_input in
        let image_match := re_search "image=" not_comma_space tool_input in
        let replicas_match := re_search "replicas=" isdigit tool_input in
        match name_match, image_match with
        | Some name, Some image =>
            result_bind
              (match replicas_match with
               | Some digits => py_int digits
               | None => Ok 1
               end)
              (fun replicas => Ok (PyStr name, PyStr image, PyInt replicas))
        | _, _ => Raise (ValueError "Could not parse name and image from input")
        end
      else
        let parts := py_split tool_input in
        match parts with
        | name :: image :: rest =>
            (* len(parts) >= 2 *)
            result_bind
              (match rest with
               | third :: _ => py_int third
               | [] => Ok 1
               end)
              (fun replicas => Ok (PyStr name, PyStr image, PyInt replicas))
        | _ =>
            Raise (ValueError
              "Invalid input format. Expected: name image [replicas] or JSON or name=value, image=value")
        end
  end.

(** ** The world

    What [subprocess.run] returns. *)
Record CompletedProcess : Type := {
  returncode : Z;
  stdout : string;
  stderr : string
}.

(** The state the tool acts on: the files by path, the cluster that
    [kubectl] talks to, and the command lines spawned so far. *)
Record World (Cluster : Type) : Type := {
  files : gmap string string;
  cluster : Cluster;
  spawned : list (list string)
}.
Arguments files {Cluster} w.
Arguments cluster {Cluster} w.
Arguments spawned {Cluster} w.

(** A stand-in for the outside of the program, to run the tool on concrete
    inputs: a cluster that is the list of the manifests applied to it, a
    [kubectl] that applies the file it is given, and a flow-style printer in
    the place of [yaml.dump]. *)
Module Demo.

(** A code point above 255 is printed as its number between braces. *)
Definition show_str (s : pystr) : string :=
  match s with
  | Latin t => t
  | Wide l =>
      fold_right
        (fun n r =>
           if (n <? 256)%N then String (ascii_of_N n) r
           else "{" +:+ pretty n +:+ "}" +:+ r)
        "" l
  end.

Fixpoint flow_dump (v : pyval) : string :=
  match v with
  | PyNone => "null"
  | PyBool true => "true"
  | PyBool false => "false"
  | PyInt z => pretty z
  | PyFloat l => l
  | PyStr s => show_str s
  | PyList l =>
      "[" +:+ (fix items (l : list pyval) : string :=
                 match l with
                 | [] => ""
                 | x :: l' => flow_dump x +:+ "," +:+ items l'
                 end) l +:+ "]"
  | PyDict d =>
      "{" +:+ (fix members (d : list (pystr * pyval)) : string :=
                 match d with
                 | [] => ""
                 | (k, x) :: d' =>
                     show_str k +:+ ":" +:+ flow_dump x +:+ "," +:+ members d'
                 end) d +:+ "}"
  end.

Definition temp_name (fs : gmap string string) : string :=
  fresh_string "/tmp/tmp.yaml" fs.

Definition kubectl (cmd : list string) (fs : gmap string string)
  (c : list string)
  : result (CompletedProcess * gmap string string) * list string :=
  match cmd with
  | ["kubectl"; "apply"; "-f"; path] =>
      match fs !! path with
      | Some text =>
          (Ok ({| returncode := 0; stdout := "deployment.apps configured";
                  stderr := "" |}, ∅), (c ++ [text])%list)
      | None =>
          (Ok ({| returncode := 1; stdout := "";
                  stderr := "error: the path does not exist" |}, ∅), c)
      end
  | _ => (Raise FileNotFoundError, c)
  end.

(** A [kubectl] that always refuses. *)
Definition kubectl_refuses (cmd : list string) (fs : gmap string string)
  (c : list string)
  : result (CompletedProcess * gmap string string) * list string :=
  (Ok ({| returncode := 1; stdout := "";
          stderr := "error: unable to connect to the server" |}, ∅), c).

(** A [kubectl] that also keeps a cache file of its own. *)
Definition kubectl_caching (cmd : list string) (fs : gmap string string)
  (c : list string)
  : result (CompletedProcess * gmap string string) * list string :=
  match kubectl cmd fs c with
  | (Ok (result, written), c') =>
      (Ok (result, <["/root/.kube/cache/discovery" := "v1"]> written), c')
  | r => r
  end.

Definition world0 : World (list string) :=
  {| files := ∅; cluster := []; spawned := [] |}.

End Demo.

(** ** The tool, over the libraries and programs it calls *)
Section Tool.

Context {Cluster : Type}.

(** [yaml.dump(_, default_flow_style=False)]. *)
Variable yaml_dump : pyval -> string.

(** The name [tempfile.NamedTemporaryFile] gives the file it creates. *)
Variable temp_name : gmap string string -> string.

(** [subprocess.run(cmd, capture_output=True, text=True)]: the child sees
    the files and the cluster.  It either completes, having changed the
    cluster and written some files (the map of the paths it created or
    overwrote, with their new content), or could not be started.  The child
    is taken to remove no file. *)
Variable subprocess_run :
  list string -> gmap string string -> Cluster ->
  result (CompletedProcess * gmap string string) * Cluster.

(** Computations: a result or an exception, and the world after. *)
Definition Py (A : Type) : Type :=
  World Cluster -> result A * World Cluster.

Definition ret {A} (a : A) : Py A := fun w => (Ok a, w).

Definition lift {A} (r : result A) : Py A := fun w => (r, w).

Definition bind {A B} (m : Py A) (k : A -> Py B) : Py B :=
  fun w =>
    match m w with
    | (Ok a, w') => k a w'
    | (Raise e, w') => (Raise e, w')
    end.

Notation "x <~ c1 ; c2" := (bind c1 (fun x => c2))
  (at level 20, c1 at level 100, c2 at level 200, only parsing).

(** [with tempfile.NamedTemporaryFile(mode="w", suffix=".yaml",
    delete=False) as f: f.write(content)], returning [f.name]. *)
Definition write_temp (content : string) : Py string :=
  fun w =>
    let temp_file := temp_name (files w) in
    (Ok temp_file,
     {| files := <[temp_file := content]> (files w);
        cluster := cluster w;
        spawned := spawned w |}).

Definition run (cmd : list string) : Py CompletedProcess :=
  fun w =>
    match subprocess_run cmd (files w) (cluster w) with
    | (Ok (result, written), c) =>
        (Ok result,
         {| files := written ∪ files w; cluster := c;
            spawned := (spawned w ++ [cmd])%list |})
    | (Raise e, c) =>
        (Raise e,
         {| files := files w; cluster := c;
            spawned := (spawned w ++ [cmd])%list |})
    end.

(** [os.unlink(path)]. *)
Definition os_unlink (path : string) : Py unit :=
  fun w =>
    match files w !! path with
    | Some _ =>
        (Ok tt, {| files := delete path (files w); cluster := cluster w;
                   spawned := spawned w |})
    | None => (Raise FileNotFoundError, w)
    end.

(** [generate_deployment_yaml(name, image, replicas=1, namespace="default",
    port=80)]; an argument left out is [None] here. *)
Definition generate_deployment_yaml (name image : pyval)
  (replicas namespace port : option pyval) : Py string :=
  let replicas := default (PyInt 1) replicas in
  let namespace := default (PyStr "default") namespace in
  let port := default (PyInt 80) port in
  ret (yaml_dump (deployment name image replicas namespace port)).

(** [apply_yaml(yaml_content)]. *)
Definition apply_yaml (yaml_content : string) : Py string :=
  temp_file <~ write_temp yaml_content;
  let cmd := ["kubectl"; "apply"; "-f"; temp_file] in
  result <~ run cmd;
  _ <~ os_unlink temp_file;
  ret (if returncode result =? 0 then stdout result else stderr result).

(** [CreateDeploymentTool._run(tool_input)]. *)
Definition CreateDeploymentTool_run (tool_input : string) : Py string :=
  intent <~ lift (parse_tool_input tool_input);
  let '(name, image, replicas) := intent in
  yaml_content <~ generate_deployment_yaml name image (Some replicas) None None;
  apply_yaml yaml_content.

(** ** The command loop

    The [while True] loop under [if __name__ == "__main__"].  The standard
    input is the list of the lines still to be read, and [input] raises
    [EOFError] when none is left.  [agent.run] is the language model with
    the tools it may call: any computation on the world, whose cluster
    component can hold whatever else the agent depends on.  Interrupts,
    which the handler does not catch, are not modelled. *)
Variable agent_run : string -> Py string.

(** What the handler [except Exception] of the loop catches. *)
Inductive caught : Type :=
| EOFError
| AgentError (e : exn).

(** What the program writes to the console: the two lines of the banner,
    the prompt of [input], the answer of the agent, and the two lines that
    report an exception. *)
Inductive printed : Type :=
| Banner
| Prompt
| AgentSays (result : string)
| ErrorSays (e : caught).

Inductive loop_state : Type :=
| Exited
| Running.

(** The loop, for at most [fuel] turns: [Exited] after [break], [Running]
    when the turns are used up. *)
Fixpoint main_loop (fuel : nat) (stdin : list string) (console : list printed)
  (w : World Cluster) : loop_state * list printed * World Cluster :=
  match fuel with
  | O => (Running, console, w)
  | S fuel' =>
      let console := (console ++ [Prompt])%list in
      match stdin with
      | [] =>
          (* input raises EOFError, the handler reports it *)
          main_loop fuel' [] (console ++ [ErrorSays EOFError])%list w
      | line :: rest =>
          let user_input := py_strip line in
          if decide (py_lower user_input ∈ ["exit"; "quit"]) then
            (Exited, console, w)
          else
            match agent_run user_input w with
            | (Ok result, w') =>
                main_loop fuel' rest (console ++ [AgentSays result])%list w'
            | (Raise e, w') =>
                main_loop fuel' rest (console ++ [ErrorSays (AgentError e)])%list w'
            end
      end
  end.

(** The program: the banner, then the loop. *)
Definition main (fuel : nat) (stdin : list string) (w : World Cluster)
  : loop_state * list printed * World Cluster :=
  main_loop fuel stdin [Banner] w.

(** The turns of the loop on lines that are all passed to the agent: the
    console and the world after them. *)
Fixpoint answers (lines : list string) (console : list printed)
  (w : World Cluster) : list printed * World Cluster :=
  match lines with
  | [] => (console, w)
  | line :: rest =>
      match agent_run (py_strip line) w with
      | (Ok result, w') =>
          answers rest (console ++ [Prompt; AgentSays result])%list w'
      | (Raise e, w') =>
          answers rest (console ++ [Prompt; ErrorSays (AgentError e)])%list w'
      end
  end.

(** * Properties *)

(** ** The string functions *)

Lemma isdigit_not_space c : isdigit c = true -> isspace c = false.
Proof.
  destruct c as [[] [] [] [] [] [] [] []]; vm_compute; congruence.
Qed.

Lemma isdigit_not_sign c :
  isdigit c = true -> c <> "-"%char /\ c <> "+"%char /\ c <> "_"%char.
Proof.
  destruct c as [[] [] [] [] [] [] [] []]; vm_compute; intros ?;
    repeat split; congruence.
Qed.

Lemma digit_value_nonneg c : isdigit c = true -> 0 <= digit_value c.
Proof.
  unfold isdigit, digit_value. intros H.
  apply andb_true_iff in H as [H _]. apply N.leb_le in H. lia.
Qed.

Lemma all_in_impl (p q : ascii -> bool) s :
  (forall c, p c = true -> q c = true) ->
  all_in p s = true -> all_in q s = true.
Proof.
  intros Hpq. induction s as [|c s IH]; simpl; [done|].
  rewrite !andb_true_iff. intros [Hc Hs]. split; [by apply Hpq | by apply IH].
Qed.

Lemma take_while_all_in p s : all_in p (take_while p s) = true.
Proof.
  induction s as [|c s IH]; simpl; [done|].
  destruct (p c) eqn:Hc; simpl; [|done]. by rewrite Hc, IH.
Qed.

Lemma drop_while_head p c s : p c = false -> drop_while p (String c s) = String c s.
Proof. intros H. simpl. by rewrite H. Qed.

Lemma rstrip_no_space s :
  all_in (fun c => negb (isspace c)) s = true -> rstrip s = s.
Proof.
  induction s as [|c s IH]; simpl; [done|].
  rewrite andb_true_iff, negb_true_iff. intros [Hc Hs].
  rewrite (IH Hs), Hc. by destruct s.
Qed.

Lemma py_strip_digits s : all_in isdigit s = true -> py_strip s = s.
Proof.
  intros H. unfold py_strip.
  assert (Hs : all_in (fun c => negb (isspace c)) s = true).
  { apply (all_in_impl isdigit); [|done].
    intros c Hc. by rewrite (isdigit_not_space c Hc). }
  destruct s as [|c s]; [done|].
  simpl in Hs. apply andb_true_iff in Hs as [Hc Hs'].
  apply negb_true_iff in Hc. rewrite (drop_while_head _ _ _ Hc).
  apply rstrip_no_space. simpl. by rewrite Hc, Hs'.
Qed.

Lemma int_digits_digits s : forall acc,
  all_in isdigit s = true -> 0 <= acc ->
  exists z, int_digits acc s = Some z /\ 0 <= z.
Proof.
  induction s as [|c s IH]; intros acc Hs Hacc; simpl.
  - by exists acc.
  - simpl in Hs. apply andb_true_iff in Hs as [Hc Hs]. rewrite Hc.
    apply IH; [done|]. pose proof (digit_value_nonneg c Hc). lia.
Qed.

Lemma count_digits_length s : (count_digits s <= String.length s)%nat.
Proof.
  induction s as [|c s IH]; simpl; [lia|]. destruct (isdigit c); lia.
Qed.

Lemma count_digits_all s :
  all_in isdigit s = true -> count_digits s = String.length s.
Proof.
  induction s as [|c s IH]; simpl; [done|].
  rewrite andb_true_iff. intros [-> Hs]. by rewrite (IH Hs).
Qed.

(** [int] of a non-empty run of digits: a natural number, or [ValueError]
    when the digits are too many. *)
Lemma py_int_of_digits s :
  all_in isdigit s = true -> s <> EmptyString ->
  exists z,
    0 <= z /\
    py_int s
    = if (count_digits s <=? int_max_str_digits)%nat
      then Ok z
      else Raise (ValueError
             "Exceeds the limit (4300 digits) for integer string conversion").
Proof.
  intros Hs Hne. unfold py_int. rewrite (py_strip_digits s Hs).
  destruct s as [|c s]; [done|].
  pose proof Hs as Hs'. cbn [all_in] in Hs'.
  apply andb_true_iff in Hs' as [Hc Hs'].
  destruct (isdigit_not_sign c Hc) as (Hm & Hp & _).
  assert (Hbody :
    match String c s with
    | String "-" r => (true, r)
    | String "+" r => (false, r)
    | _ => (false, String c s)
    end = (false, String c s)).
  { destruct c as [[] [] [] [] [] [] [] []]; try reflexivity; exfalso; auto. }
  rewrite Hbody. unfold int_literal. rewrite Hc.
  destruct (int_digits_digits s (digit_value c) Hs' (digit_value_nonneg c Hc))
    as (z & -> & Hz).
  by exists z.
Qed.

(** [int] of a non-empty run of at most [int_max_str_digits] digits is a
    natural number. *)
Lemma py_int_digits s :
  all_in isdigit s = true -> s <> EmptyString ->
  (String.length s <= int_max_str_digits)%nat ->
  exists z, py_int s = Ok z /\ 0 <= z.
Proof.
  intros Hs Hne Hlen.
  destruct (py_int_of_digits s Hs Hne) as (z & Hz & ->).
  pose proof (count_digits_length s).
  destruct (Nat.leb_spec (count_digits s) int_max_str_digits); [|lia].
  by exists z.
Qed.

(** When [int] of a run of digits returns, it returns a natural number. *)
Lemma py_int_digits_nonneg s z :
  all_in isdigit s = true -> py_int s = Ok z -> 0 <= z.
Proof.
  intros Hs. destruct s as [|c s]; [done|].
  destruct (py_int_of_digits (String c s) Hs) as (z' & Hz & ->); [done|].
  destruct (_ <=? _)%nat; [|done]. by intros [= <-].
Qed.

Lemma strip_prefix_Some lit : forall s r,
  strip_prefix lit s = Some r -> s = lit +:+ r.
Proof.
  induction lit as [|a lit IH]; intros s r; simpl.
  - by intros [= ->].
  - destruct s as [|b s]; [done|].
    destruct (Ascii.eqb a b) eqn:Hab; [|done].
    apply Ascii.eqb_eq in Hab as ->. intros H. by rewrite (IH _ _ H).
Qed.

Lemma strip_prefix_app lit r : strip_prefix lit (lit +:+ r) = Some r.
Proof.
  induction lit as [|a lit IH]; simpl; [done|]. by rewrite Ascii.eqb_refl.
Qed.

Lemma match_here_Some lit cls s g :
  match_here lit cls s = Some g ->
  g <> EmptyString /\ all_in cls g = true /\
  exists post, s = lit +:+ post /\ g = take_while cls post.
Proof.
  unfold match_here. destruct (strip_prefix lit s) as [rest|] eqn:Hp; [|done].
  pose proof (take_while_all_in cls rest) as Hall.
  destruct (take_while cls rest) as [|c g'] eqn:Hg; [done|].
  intros [= <-]. repeat split; [done|done|].
  exists rest. split; [by apply strip_prefix_Some | done].
Qed.

(** A match of [re.search] is a non-empty run of the class, found right
    after an occurrence of the literal. *)
Lemma re_search_Some lit cls s g :
  re_search lit cls s = Some g ->
  g <> EmptyString /\ all_in cls g = true /\
  exists pre post, s = pre +:+ lit +:+ post /\ g = take_while cls post.
Proof.
  induction s as [|c s IH]; simpl.
  - destruct (match_here lit cls EmptyString) as [g'|] eqn:Hm; [|done].
    intros [= ->]. destruct (match_here_Some _ _ _ _ Hm) as (? & ? & post & ? & ?).
    repeat split; [done..|]. by exists EmptyString, post.
  - destruct (match_here lit cls (String c s)) as [g'|] eqn:Hm.
    + intros [= ->]. destruct (match_here_Some _ _ _ _ Hm) as (? & ? & post & ? & ?).
      repeat split; [done..|]. by exists EmptyString, post.
    + intros H. destruct (IH H) as (? & ? & pre & post & -> & ?).
      repeat split; [done..|]. by exists (String c pre), post.
Qed.

Lemma match_here_app_None lit cls post :
  match_here lit cls (lit +:+ post) = None -> take_while cls post = EmptyString.
Proof.
  unfold match_here. rewrite strip_prefix_app.
  by destruct (take_while cls post).
Qed.

(** [re.search] finds nothing exactly when no occurrence of the literal is
    followed by a character of the class. *)
Lemma re_search_None lit cls s :
  re_search lit cls s = None <->
  (forall pre post, s = pre +:+ lit +:+ post -> take_while cls post = EmptyString).
Proof.
  split.
  - induction s as [|c s IH]; simpl.
    + destruct (match_here lit cls EmptyString) eqn:Hm; [done|]. intros _ pre post Hs.
      destruct pre; [|done]. change (EmptyString = lit +:+ post) in Hs.
      apply (match_here_app_None lit cls). by rewrite <- Hs.
    + destruct (match_here lit cls (String c s)) eqn:Hm; [done|]. intros H pre post Hs.
      destruct pre as [|c' pre].
      * change (String c s = lit +:+ post) in Hs.
        apply (match_here_app_None lit cls). by rewrite <- Hs.
      * change (String c s = String c' (pre +:+ lit +:+ post)) in Hs.
        injection Hs as -> Hs. by apply (IH H pre post).
  - intros Hno. destruct (re_search lit cls s) as [g|] eqn:Hr; [|done].
    destruct (re_search_Some _ _ _ _ Hr) as (Hne & _ & pre & post & Hs & Hg).
    rewrite (Hno pre post Hs) in Hg. done.
Qed.

Lemma split_from_nonempty s : forall cur,
  Forall (fun part => part <> EmptyString) (split_from cur s).
Proof.
  induction s as [|c s IH]; intros cur; simpl.
  - destruct cur; [constructor | by repeat constructor].
  - destruct (isspace c); [|apply IH].
    destruct cur; [apply IH | constructor; [done | apply IH]].
Qed.

Lemma py_split_nonempty s : Forall (fun part => part <> EmptyString) (py_split s).
Proof. apply split_from_nonempty. Qed.

(** ** The decoder *)

Lemma drop_while_length p s : (String.length (drop_while p s) <= String.length s)%nat.
Proof.
  induction s as [|c s IH]; simpl; [lia|]. destruct (p c); simpl; lia.
Qed.

Lemma skip_ws_length s : (String.length (skip_ws s) <= String.length s)%nat.
Proof. apply drop_while_length. Qed.

Lemma strip_prefix_length lit : forall s r,
  strip_prefix lit s = Some r -> (String.length r <= String.length s)%nat.
Proof.
  induction lit as [|a lit IH]; intros s r; simpl.
  - intros [= ->]. lia.
  - destruct s as [|b s]; [done|]. destruct (Ascii.eqb a b); [|done].
    intros H. apply IH in H. simpl. lia.
Qed.

Lemma scanstring_length n : forall s acc k r,
  (String.length s <= n)%nat -> scanstring acc s = Some (k, r) -> (String.length r <= String.length s)%nat.
Proof.
  induction n as [|n IH]; intros s acc k r Hn.
  - destruct s; [done | simpl in Hn; lia].
  - destruct s as [|c s]; [done|]. simpl in Hn. simpl.
    destruct (Ascii.eqb c dquote). { intros [= _ ->]. lia. }
    destruct (Ascii.eqb c "\").
    + destruct s as [|e s]; [done|]. simpl in Hn.
      destruct (escape_char e).
      { intros H. apply IH in H; [simpl; lia | lia]. }
      destruct (Ascii.eqb e "u"); [|done].
      destruct s as [|h1 [|h2 [|h3 [|h4 s]]]]; try done.
      destruct (hex4 h1 h2 h3 h4) as [n0|]; [|done].
      simpl in Hn.
      assert (Hskip : forall acc',
        scanstring acc' s = Some (k, r) ->
        (String.length r <= String.length (String c (String e
           (String h1 (String h2 (String h3 (String h4 s)))))))%nat).
      { intros acc' H. apply IH in H; [simpl; lia | lia]. }
      destruct (is_high_surrogate n0); [|apply Hskip].
      destruct s as [|b [|u [|l1 [|l2 [|l3 [|l4 r3]]]]]]; try apply Hskip.
      destruct (Ascii.eqb b "\" && Ascii.eqb u "u"); [|apply Hskip].
      destruct (hex4 l1 l2 l3 l4) as [m|]; [|done].
      destruct (is_low_surrogate m); [|apply Hskip].
      simpl in Hn. intros H. apply IH in H; [simpl; lia | lia].
    + destruct (code c <? 32)%N; [done|].
      intros H. apply IH in H; [lia | lia].
Qed.

Lemma scan_number_length s v r :
  scan_number s = Some (v, r) -> (String.length r <= String.length s)%nat.
Proof.
  unfold scan_number.
  destruct (scan_minus s) as [negative s1] eqn:Hm.
  assert (H1 : (String.length s1 <= String.length s)%nat).
  { unfold scan_minus in Hm. destruct s as [|c s]; [by inversion Hm|].
    destruct (Ascii.eqb c "-"); inversion Hm; simpl; lia. }
  destruct (scan_int_part s1) as [[ip r1]|] eqn:Hi; [|done].
  assert (H2 : (String.length r1 <= String.length s1)%nat).
  { unfold scan_int_part in Hi. destruct s1 as [|c s1]; [done|].
    destruct (isdigit c); [|done].
    pose proof (drop_while_length isdigit s1).
    destruct (Ascii.eqb c "0"); inversion Hi; simpl; lia. }
  destruct (scan_frac r1) as [frac r2] eqn:Hf.
  assert (H3 : (String.length r2 <= String.length r1)%nat).
  { unfold scan_frac in Hf. destruct r1 as [|c r1]; [by inversion Hf|].
    pose proof (drop_while_length isdigit r1).
    destruct (Ascii.eqb c "."); [|by inversion Hf].
    destruct (take_while isdigit r1); inversion Hf; simpl; lia. }
  destruct (scan_exp r2) as [exp r3] eqn:He.
  assert (H4 : (String.length r3 <= String.length r2)%nat).
  { unfold scan_exp in He. destruct r2 as [|c r2]; [by inversion He|].
    destruct (Ascii.eqb c "e" || Ascii.eqb c "E"); [|by inversion He].
    destruct (scan_sign r2) as [sg r'] eqn:Hs.
    assert (String.length r' <= String.length r2)%nat.
    { unfold scan_sign in Hs. destruct r2 as [|c' r2]; [by inversion Hs|].
      destruct (Ascii.eqb c' "+" || Ascii.eqb c' "-"); inversion Hs; simpl; lia. }
    pose proof (drop_while_length isdigit r').
    destruct (take_while isdigit r'); inversion He; simpl; lia. }
  destruct frac, exp; try (intros [= _ <-]; lia).
  destruct (int_literal ip); [|done]. intros [= _ <-]. lia.
Qed.

Lemma scan_atom_length s v r :
  scan_atom s = Some (v, r) -> (String.length r <= String.length s)%nat.
Proof.
  unfold scan_atom.
  repeat match goal with
  | |- context [strip_prefix ?l s] =>
      let H := fresh in
      destruct (strip_prefix l s) eqn:H;
      [apply strip_prefix_length in H; by intros [= _ <-]|]
  end.
  destruct (scan_number s) as [[v' r']|] eqn:Hn.
  - apply scan_number_length in Hn. by intros [= _ <-].
  - repeat match goal with
    | |- context [strip_prefix ?l s] =>
        let H := fresh in
        destruct (strip_prefix l s) eqn:H;
        [apply strip_prefix_length in H; by intros [= _ <-]|]
    end. done.
Qed.

Lemma codes_eqb_eq l : forall m, codes_eqb l m = true <-> l = m.
Proof.
  induction l as [|a l IH]; intros [|b m]; simpl; try done.
  rewrite andb_true_iff, N.eqb_eq, IH. split; [by intros [-> ->] | by intros [= -> ->]].
Qed.

(** [pystr_eqb] decides the equality of texts. *)
Lemma pystr_eqb_eq a b : pystr_eqb a b = true <-> a = b.
Proof.
  destruct a as [s|l], b as [t|m]; simpl; try done.
  - rewrite String.eqb_eq. split; [by intros -> | by intros [= ->]].
  - rewrite codes_eqb_eq. split; [by intros -> | by intros [= ->]].
Qed.

Lemma push_char_well_formed acc c :
  well_formed acc = true -> well_formed (push_char acc c) = true.
Proof.
  destruct acc as [s|l]; simpl; [done|].
  rewrite existsb_app. by intros ->.
Qed.

Lemma push_code_well_formed acc n :
  well_formed acc = true -> well_formed (push_code acc n) = true.
Proof.
  intros Hacc. unfold push_code. destruct (N.ltb_spec n 256).
  - by apply push_char_well_formed.
  - simpl. rewrite existsb_app. simpl.
    replace (256 <=? n)%N with true by (symmetry; by apply N.leb_le).
    by rewrite orb_true_r.
Qed.

(** The decoder makes a [Wide] text only of a text with a code point
    above 255. *)
Lemma scanstring_well_formed n : forall s acc k r,
  (String.length s <= n)%nat -> well_formed acc = true ->
  scanstring acc s = Some (k, r) -> well_formed k = true.
Proof.
  induction n as [|n IH]; intros s acc k r Hn Hacc.
  - destruct s; [done | simpl in Hn; lia].
  - destruct s as [|c s]; [done|]. simpl in Hn. simpl.
    destruct (Ascii.eqb c dquote). { by intros [= <- _]. }
    destruct (Ascii.eqb c "\").
    + destruct s as [|e s]; [done|]. simpl in Hn.
      destruct (escape_char e).
      { apply IH; [lia | by apply push_char_well_formed]. }
      destruct (Ascii.eqb e "u"); [|done].
      destruct s as [|h1 [|h2 [|h3 [|h4 s]]]]; try done.
      destruct (hex4 h1 h2 h3 h4) as [n0|]; [|done].
      simpl in Hn.
      assert (Hskip : scanstring (push_code acc n0) s = Some (k, r) ->
                      well_formed k = true).
      { apply IH; [lia | by apply push_code_well_formed]. }
      destruct (is_high_surrogate n0); [|apply Hskip].
      destruct s as [|b [|u [|l1 [|l2 [|l3 [|l4 r3]]]]]]; try apply Hskip.
      destruct (Ascii.eqb b "\" && Ascii.eqb u "u"); [|apply Hskip].
      destruct (hex4 l1 l2 l3 l4) as [m|]; [|done].
      destruct (is_low_surrogate m); [|apply Hskip].
      simpl in Hn. apply IH; [lia | by apply push_code_well_formed].
    + destruct (code c <? 32)%N; [done|].
      apply IH; [lia | by apply push_char_well_formed].
Qed.

(** The decoder never runs out of the fuel [json_loads] gives it: a value
    read leaves a text no longer than the one it started from, and with
    fuel above twice the length of the text the answer is the same whatever
    the fuel. *)
Section Decoder.

Local Arguments scan_atom : simpl never.
Local Arguments skip_ws : simpl never.
Local Arguments scanstring : simpl never.
Local Arguments Ascii.eqb : simpl never.
Local Arguments Nat.mul : simpl never.

Lemma scan_length f :
  (forall s v r, scan_once f s = Some (v, r) -> (String.length r <= String.length s)%nat) /\
  (forall vals s v r, JSONArray f vals s = Some (v, r) -> (String.length r <= String.length s)%nat) /\
  (forall pairs s v r, JSONObject f pairs s = Some (v, r) -> (String.length r <= String.length s)%nat).
Proof.
  induction f as [|f (IHs & IHa & IHo)]; [done|].
  split; [|split].
  - intros s v r. simpl. destruct s as [|c s]; [done|].
    pose proof (skip_ws_length s) as Hw.
    destruct (Ascii.eqb c dquote).
    { destruct (scanstring EmptyString s) as [[k r']|] eqn:Hk; [|done].
      apply (scanstring_length _ _ _ _ _ (le_n _)) in Hk.
      intros [= _ <-]. simpl. lia. }
    destruct (Ascii.eqb c "{").
    { destruct (skip_ws s) as [|c' r']; [done|]. simpl in Hw.
      destruct (Ascii.eqb c' "}"). { intros [= _ <-]. simpl. lia. }
      destruct (Ascii.eqb c' dquote); [|done].
      intros H. apply IHo in H. simpl. lia. }
    destruct (Ascii.eqb c "[").
    { destruct (skip_ws s) as [|c' r'].
      - intros H. apply IHa in H. simpl in *. lia.
      - simpl in Hw. destruct (Ascii.eqb c' "]"). { intros [= _ <-]. simpl. lia. }
        intros H. apply IHa in H. simpl in *. lia. }
    apply scan_atom_length.
  - intros vals s v r. simpl.
    destruct (scan_once f s) as [[v0 r0]|] eqn:Hv; [|done]. apply IHs in Hv.
    pose proof (skip_ws_length r0) as Hw.
    destruct (skip_ws r0) as [|c r']; [done|]. simpl in Hw.
    destruct (Ascii.eqb c "]"). { intros [= _ <-]. lia. }
    destruct (Ascii.eqb c ","); [|done].
    pose proof (skip_ws_length r').
    intros H'. apply IHa in H'. lia.
  - intros pairs s v r. simpl.
    destruct (scanstring EmptyString s) as [[k r0]|] eqn:Hk; [|done].
    apply (scanstring_length _ _ _ _ _ (le_n _)) in Hk.
    pose proof (skip_ws_length r0) as Hw.
    destruct (skip_ws r0) as [|c r1]; [done|]. simpl in Hw.
    destruct (Ascii.eqb c ":"); [|done].
    pose proof (skip_ws_length r1).
    destruct (scan_once f (skip_ws r1)) as [[v0 r2]|] eqn:Hv; [|done]. apply IHs in Hv.
    pose proof (skip_ws_length r2) as Hw2.
    destruct (skip_ws r2) as [|c' r3]; [done|]. simpl in Hw2.
    destruct (Ascii.eqb c' "}"). { intros [= _ <-]. lia. }
    destruct (Ascii.eqb c' ","); [|done].
    pose proof (skip_ws_length r3) as Hw3.
    destruct (skip_ws r3) as [|c'' r4]; [done|]. simpl in Hw3.
    destruct (Ascii.eqb c'' dquote); [|done].
    intros H'. apply IHo in H'. lia.
Qed.

Lemma JSONObject_empty f pairs : JSONObject f pairs EmptyString = None.
Proof. by destruct f. Qed.

Lemma scan_fuel f1 : forall f2,
  (forall s, (2 * String.length s + 1 <= f1)%nat -> (2 * String.length s + 1 <= f2)%nat ->
     scan_once f1 s = scan_once f2 s) /\
  (forall vals s, (2 * String.length s + 2 <= f1)%nat -> (2 * String.length s + 2 <= f2)%nat ->
     JSONArray f1 vals s = JSONArray f2 vals s) /\
  (forall pairs s, (2 * String.length s <= f1)%nat -> (2 * String.length s <= f2)%nat ->
     JSONObject f1 pairs s = JSONObject f2 pairs s).
Proof.
  induction f1 as [|f1 IH]; intros f2.
  { split; [|split]; intros; try lia.
    destruct s; [|simpl in *; lia]. by rewrite !JSONObject_empty. }
  destruct f2 as [|f2].
  { split; [|split]; intros; try lia.
    destruct s; [|simpl in *; lia]. by rewrite !JSONObject_empty. }
  destruct (IH f2) as (IHs & IHa & IHo). split; [|split].
  - intros s H1 H2. simpl. destruct s as [|c s]; [done|]. simpl in H1, H2.
    pose proof (skip_ws_length s) as Hw.
    destruct (Ascii.eqb c dquote); [done|].
    destruct (Ascii.eqb c "{").
    { destruct (skip_ws s) as [|c' r']; [done|]. simpl in Hw.
      destruct (Ascii.eqb c' "}"); [done|].
      destruct (Ascii.eqb c' dquote); [|done]. apply IHo; lia. }
    destruct (Ascii.eqb c "["); [|done].
    destruct (skip_ws s) as [|c' r']; [apply IHa; simpl; lia|]. simpl in Hw.
    destruct (Ascii.eqb c' "]"); [done|]. apply IHa; simpl; lia.
  - intros vals s H1 H2. simpl. rewrite (IHs s) by lia.
    destruct (scan_once f2 s) as [[v0 r0]|] eqn:Hv; [|done].
    apply (proj1 (scan_length f2)) in Hv.
    pose proof (skip_ws_length r0) as Hw.
    destruct (skip_ws r0) as [|c r']; [done|]. simpl in Hw.
    destruct (Ascii.eqb c "]"); [done|].
    destruct (Ascii.eqb c ","); [|done].
    pose proof (skip_ws_length r'). apply IHa; lia.
  - intros pairs s H1 H2. simpl.
    destruct (scanstring EmptyString s) as [[k r0]|] eqn:Hk; [|done].
    apply (scanstring_length _ _ _ _ _ (le_n _)) in Hk.
    pose proof (skip_ws_length r0) as Hw.
    destruct (skip_ws r0) as [|c r1]; [done|]. simpl in Hw.
    destruct (Ascii.eqb c ":"); [|done].
    pose proof (skip_ws_length r1).
    rewrite (IHs (skip_ws r1)) by lia.
    destruct (scan_once f2 (skip_ws r1)) as [[v0 r2]|] eqn:Hv; [|done].
    apply (proj1 (scan_length f2)) in Hv.
    pose proof (skip_ws_length r2) as Hw2.
    destruct (skip_ws r2) as [|c' r3]; [done|]. simpl in Hw2.
    destruct (Ascii.eqb c' "}"); [done|].
    destruct (Ascii.eqb c' ","); [|done].
    pose proof (skip_ws_length r3) as Hw3.
    destruct (skip_ws r3) as [|c'' r4]; [done|]. simpl in Hw3.
    destruct (Ascii.eqb c'' dquote); [|done]. apply IHo; lia.
Qed.

(** More fuel than [json_loads] gives does not change its answer. *)
Lemma json_loads_fuel s f :
  (2 * String.length s + 2 <= f)%nat ->
  json_loads s =
    match scan_once f (skip_ws s) with
    | Some (v, r) =>
        match skip_ws r with
        | EmptyString => Some v
        | _ => None
        end
    | None => None
    end.
Proof.
  intros Hf. unfold json_loads. pose proof (skip_ws_length s).
  by rewrite (proj1 (scan_fuel _ f) (skip_ws s)) by lia.
Qed.

End Decoder.

(** ** The tool *)

(** [apply_yaml] in one step: what it returns and the world it leaves, by
    the outcome of the child process. *)
Lemma apply_yaml_unfold yaml_content (w : World Cluster) :
  let temp_file := temp_name (files w) in
  let cmd := ["kubectl"; "apply"; "-f"; temp_file] in
  apply_yaml yaml_content w =
    match subprocess_run cmd (<[temp_file := yaml_content]> (files w)) (cluster w) with
    | (Ok (result, written), c) =>
        (Ok (if returncode result =? 0 then stdout result else stderr result),
         {| files := delete temp_file
                       (written ∪ <[temp_file := yaml_content]> (files w));
            cluster := c;
            spawned := (spawned w ++ [cmd])%list |})
    | (Raise e, c) =>
        (Raise e,
         {| files := <[temp_file := yaml_content]> (files w);
            cluster := c;
            spawned := (spawned w ++ [cmd])%list |})
    end.
Proof.
  unfold apply_yaml, bind, write_temp, run, os_unlink, ret. simpl.
  destruct (subprocess_run _ _ _) as [[[result written]|e] c]; simpl; [|done].
  destruct (written !! temp_name (files w)) as [x|] eqn:Hw.
  - by rewrite (lookup_union_Some_l _ _ _ _ Hw).
  - by rewrite lookup_union_r, lookup_insert_eq.
Qed.

(** [apply_yaml] spawns one process, [kubectl apply -f] on the temporary
    file, whatever becomes of it. *)
Lemma apply_yaml_spawned yaml_content (w : World Cluster) :
  spawned (snd (apply_yaml yaml_content w))
  = (spawned w ++ [["kubectl"; "apply"; "-f"; temp_name (files w)]])%list.
Proof.
  rewrite apply_yaml_unfold.
  by destruct (subprocess_run _ _ _) as [[[result written]|e] c].
Qed.

Lemma run_parsed s name image replicas (w : World Cluster) :
  parse_tool_input s = Ok (name, image, replicas) ->
  CreateDeploymentTool_run s w
  = apply_yaml
      (yaml_dump (deployment name image replicas (PyStr "default") (PyInt 80))) w.
Proof.
  intros H. unfold CreateDeploymentTool_run, bind, lift. by rewrite H.
Qed.

(** An exception of the parsing leaves [_run] before anything is done. *)
Lemma run_raised s e (w : World Cluster) :
  parse_tool_input s = Raise e ->
  CreateDeploymentTool_run s w = (Raise e, w).
Proof.
  intros H. unfold CreateDeploymentTool_run, bind, lift. by rewrite H.
Qed.

(** In the key=value format an input without an image is refused before
    anything is done. *)
Lemma key_value_without_image s (w : World Cluster) :
  json_loads s = None -> contains "=" s = true ->
  re_search "image=" not_comma_space s = None ->
  CreateDeploymentTool_run s w
  = (Raise (ValueError "Could not parse name and image from input"), w).
Proof.
  intros Hj He Hi. apply run_raised. unfold parse_tool_input.
  rewrite Hj, He, Hi. by destruct (re_search "name=" _ _).
Qed.

(** In the whitespace format an input without an image, that is with
    fewer than two fields, is refused before anything is done. *)
Lemma words_without_image s (w : World Cluster) :
  json_loads s = None -> contains "=" s = false ->
  (length (py_split s) < 2)%nat ->
  exists msg, CreateDeploymentTool_run s w = (Raise (ValueError msg), w).
Proof.
  intros Hj He Hl. eexists. apply run_raised. unfold parse_tool_input.
  rewrite Hj, He. destruct (py_split s) as [|n [|i rest]]; simpl in Hl; [done|done|lia].
Qed.

(** The three formats, in the order they are tried.  JSON first: when the
    text decodes to an object, name, image and replicas are read from it
    ([None], [None] and 1 when absent) and the other formats are not tried.
    When the text does not decode and holds an equals sign, the key=value
    patterns are searched: name and image must both match, or a
    [ValueError] is raised; replicas is [int] of the matched run of digits,
    or 1.  Otherwise the text is split at white space: with two fields or
    more the first two are name and image and the third, if any, goes
    through [int]; with fewer a [ValueError] is raised. *)
Lemma parse_tool_input_formats s :
  (forall pairs, json_loads s = Some (PyDict pairs) ->
     parse_tool_input s
     = Ok (default PyNone (dict_lookup "name" pairs),
           default PyNone (dict_lookup "image" pairs),
           default (PyInt 1) (dict_lookup "replicas" pairs))) /\
  (json_loads s = None -> contains "=" s = true ->
     parse_tool_input s
     = match re_search "name=" not_comma_space s,
             re_search "image=" not_comma_space s with
       | Some n, Some i =>
           match re_search "replicas=" isdigit s with
           | Some digits =>
               match py_int digits with
               | Ok z => Ok (PyStr n, PyStr i, PyInt z)
               | Raise e => Raise e
               end
           | None => Ok (PyStr n, PyStr i, PyInt 1)
           end
       | _, _ => Raise (ValueError "Could not parse name and image from input")
       end) /\
  (json_loads s = None -> contains "=" s = false ->
     parse_tool_input s
     = match py_split s with
       | n :: i :: rest =>
           match rest with
           | third :: _ =>
               match py_int third with
               | Ok z => Ok (PyStr n, PyStr i, PyInt z)
               | Raise e => Raise e
               end
           | [] => Ok (PyStr n, PyStr i, PyInt 1)
           end
       | _ =>
           Raise (ValueError
             "Invalid input format. Expected: name image [replicas] or JSON or name=value, image=value")
       end).
Proof.
  unfold parse_tool_input. repeat split.
  - intros pairs ->. simpl.
    by destruct (dict_lookup "name" pairs), (dict_lookup "image" pairs),
      (dict_lookup "replicas" pairs).
  - intros -> ->.
    destruct (re_search "name=" _ s) as [n|]; [|done].
    destruct (re_search "image=" _ s) as [i|]; [|done].
    destruct (re_search "replicas=" _ s) as [ds|]; [|done].
    simpl. by destruct (py_int ds).
  - intros -> ->.
    destruct (py_split s) as [|n [|i rest]]; [done|done|].
    destruct rest as [|third rest]; [done|]. simpl.
    by destruct (py_int third).
Qed.

(** ** The claims *)

(** C1.  For name "web", image "nginx:1.25", replicas 3, namespace
    "default" and port 80, [generate_deployment_yaml] returns the dump of a
    Deployment manifest whose spec has replicas 3 and exactly one container,
    and that container has exactly one port mapping, with containerPort
    80. *)
Theorem C1_web_manifest (w : World Cluster) :
  let m := deployment (PyStr "web") (PyStr "nginx:1.25") (PyInt 3)
             (PyStr "default") (PyInt 80) in
  generate_deployment_yaml (PyStr "web") (PyStr "nginx:1.25")
    (Some (PyInt 3)) (Some (PyStr "default")) (Some (PyInt 80)) w
  = (Ok (yaml_dump m), w) /\
  at_path ["kind"] m = Some (PyStr "Deployment") /\
  at_path ["spec"; "replicas"] m = Some (PyInt 3) /\
  exists container,
    at_path ["spec"; "template"; "spec"; "containers"] m
    = Some (PyList [container]) /\
    field "name" container = Some (PyStr "web") /\
    field "image" container = Some (PyStr "nginx:1.25") /\
    field "ports" container = Some (PyList [py_dict [("containerPort", PyInt 80)]]).
Proof.
  simpl. repeat split. eexists. repeat split.
Qed.

(** C2.  [generate_deployment_yaml] is deterministic and pure: for fixed
    arguments, two calls, one after the other or in different worlds,
    return the same manifest, and a call leaves the world as it was: no
    file is written, no process is spawned, the cluster is not touched. *)
Theorem C2_generate_deterministic_pure name image replicas namespace port
  (w1 w2 : World Cluster) :
  exists text,
    generate_deployment_yaml name image replicas namespace port w1 = (Ok text, w1) /\
    generate_deployment_yaml name image replicas namespace port w2 = (Ok text, w2) /\
    bind (generate_deployment_yaml name image replicas namespace port)
      (fun first =>
         bind (generate_deployment_yaml name image replicas namespace port)
           (fun second => ret (first, second))) w1
    = (Ok (text, text), w1).
Proof.
  eexists. unfold bind, generate_deployment_yaml, ret. repeat split.
Qed.

(** C3, amended.  [generate_deployment_yaml] validates nothing: it returns
    a manifest for every name and every replicas value.  An intent read
    from the key=value or the whitespace format has a non-empty name and a
    non-empty image, and one read from the key=value format has
    replicas >= 0. *)
Theorem C3_generation_total_text_formats_nonempty :
  (forall name image replicas namespace port (w : World Cluster),
     exists text,
       generate_deployment_yaml name image replicas namespace port w
       = (Ok text, w)) /\
  (forall s name image replicas,
     json_loads s = None ->
     parse_tool_input s = Ok (name, image, replicas) ->
     exists (n i : string) z,
       name = PyStr n /\ image = PyStr i /\ replicas = PyInt z /\
       n <> EmptyString /\ i <> EmptyString /\
       (contains "=" s = true -> 0 <= z)).
Proof.
  split.
  - intros. by eexists.
  - intros s name image replicas Hj. unfold parse_tool_input. rewrite Hj.
    destruct (contains "=" s) eqn:He.
    + destruct (re_search "name=" _ s) as [n|] eqn:Hn; [|done].
      destruct (re_search "image=" _ s) as [i|] eqn:Hi; [|done].
      destruct (re_search_Some _ _ _ _ Hn) as (Hn' & _).
      destruct (re_search_Some _ _ _ _ Hi) as (Hi' & _).
      destruct (re_search "replicas=" _ s) as [ds|] eqn:Hr.
      * destruct (re_search_Some _ _ _ _ Hr) as (Hne & Hall & _).
        destruct (py_int ds) as [z|e] eqn:Hz; [|done]. simpl.
        intros [= <- <- <-]. exists n, i, z.
        repeat split; try done. intros _. by apply (py_int_digits_nonneg ds).
      * simpl. intros [= <- <- <-]. by exists n, i, 1.
    + pose proof (py_split_nonempty s) as Hparts.
      destruct (py_split s) as [|n [|i rest]]; [done|done|].
      inversion Hparts as [|? ? Hn' Hrest]; subst.
      inversion Hrest as [|? ? Hi' _]; subst.
      destruct (match rest with [] => Ok 1 | third :: _ => py_int third end)
        as [z|e]; [|done].
      simpl. intros [= <- <- <-]. by exists n, i, z.
Qed.

(** C4, at the failing input.  The JSON text [{"name": "web"}] has no
    image, and yet [_run] raises nothing: it takes [None] for the image and
    goes on to [apply_yaml], which spawns [kubectl apply] on a manifest
    whose image is [None]. *)
Theorem C4_json_without_image_reaches_kubectl (w : World Cluster) :
  let s := dq "{'name': 'web'}" in
  let m := deployment (PyStr "web") PyNone (PyInt 1) (PyStr "default") (PyInt 80) in
  parse_tool_input s = Ok (PyStr "web", PyNone, PyInt 1) /\
  CreateDeploymentTool_run s w = apply_yaml (yaml_dump m) w /\
  spawned (snd (CreateDeploymentTool_run s w))
  = (spawned w ++ [["kubectl"; "apply"; "-f"; temp_name (files w)]])%list.
Proof.
  intros s m.
  assert (Hp : parse_tool_input s = Ok (PyStr "web", PyNone, PyInt 1))
    by (vm_compute; reflexivity).
  split; [done|]. rewrite (run_parsed _ _ _ _ w Hp).
  split; [done|]. apply apply_yaml_spawned.
Qed.

(** C5, at the failing input.  The JSON text [{}] is an object with neither
    a name nor an image, and no [ValueError] is raised: [_run] takes [None]
    for both, 1 for the replicas, and goes on to [apply_yaml], which spawns
    [kubectl apply] on the manifest.  A text of the key=value format and one
    of the whitespace format that yield no name and image are refused, with
    [ValueError], before anything is done. *)
Theorem C5_json_without_name_and_image_raises_nothing (w : World Cluster) :
  let s := "{}" in
  let m := deployment PyNone PyNone (PyInt 1) (PyStr "default") (PyInt 80) in
  json_loads s = Some (PyDict []) /\
  parse_tool_input s = Ok (PyNone, PyNone, PyInt 1) /\
  CreateDeploymentTool_run s w = apply_yaml (yaml_dump m) w /\
  spawned (snd (CreateDeploymentTool_run s w))
  = (spawned w ++ [["kubectl"; "apply"; "-f"; temp_name (files w)]])%list /\
  CreateDeploymentTool_run "replicas=2" w
  = (Raise (ValueError "Could not parse name and image from input"), w) /\
  CreateDeploymentTool_run "web" w
  = (Raise (ValueError
       "Invalid input format. Expected: name image [replicas] or JSON or name=value, image=value"),
     w).
Proof.
  intros s m.
  assert (Hp : parse_tool_input s = Ok (PyNone, PyNone, PyInt 1))
    by (vm_compute; reflexivity).
  split; [by vm_compute|]. split; [done|].
  rewrite (run_parsed _ _ _ _ w Hp). split; [done|].
  split; [apply apply_yaml_spawned|].
  split; by apply run_raised.
Qed.

(** C6.  For every input that parses, [_run] is [generate_deployment_yaml]
    followed by [apply_yaml] and nothing else, and what it does is this:
    the dump of the Deployment dictionary of the parsed name, image and
    replicas, with namespace "default" and port 80, is written to the
    temporary file, and [kubectl apply -f] is run once on that file, with
    the file in place.  What [_run] returns and the world it leaves are those
    of that one process: its output or its error text, the cluster as the
    process left it and the temporary file removed; or its exception, and
    the temporary file still there.  Nothing reads the cluster first,
    compares, or undoes. *)
Theorem C6_applies_blindly s name image replicas (w : World Cluster) :
  parse_tool_input s = Ok (name, image, replicas) ->
  let manifest :=
    yaml_dump (deployment name image replicas (PyStr "default") (PyInt 80)) in
  let temp_file := temp_name (files w) in
  let cmd := ["kubectl"; "apply"; "-f"; temp_file] in
  CreateDeploymentTool_run s w
  = bind (generate_deployment_yaml name image (Some replicas) None None)
      apply_yaml w /\
  CreateDeploymentTool_run s w
  = match subprocess_run cmd (<[temp_file := manifest]> (files w)) (cluster w) with
    | (Ok (result, written), c) =>
        (Ok (if returncode result =? 0 then stdout result else stderr result),
         {| files := delete temp_file (written ∪ <[temp_file := manifest]> (files w));
            cluster := c;
            spawned := (spawned w ++ [cmd])%list |})
    | (Raise e, c) =>
        (Raise e,
         {| files := <[temp_file := manifest]> (files w);
            cluster := c;
            spawned := (spawned w ++ [cmd])%list |})
    end.
Proof.
  intros Hp manifest temp_file cmd. rewrite (run_parsed _ _ _ _ w Hp).
  split; [done|]. apply apply_yaml_unfold.
Qed.

(** C8.  For every input that is valid JSON but not a JSON object, [_run]
    raises [AttributeError], from [data.get]; the handler of the [try] does
    not catch it, the other formats are not tried, and nothing is done. *)
Theorem C8_non_object_json_raises s data (w : World Cluster) :
  json_loads s = Some data ->
  (forall pairs, data <> PyDict pairs) ->
  CreateDeploymentTool_run s w = (Raise AttributeError, w).
Proof.
  intros Hj Hd. apply run_raised. unfold parse_tool_input. rewrite Hj.
  destruct data; try reflexivity. by destruct (Hd pairs).
Qed.

(** C9.  When the [kubectl] process completes, with whatever return code,
    [apply_yaml] raises nothing and returns a string: the standard output
    when the return code is 0 and the standard error otherwise.  In both
    cases the temporary file is gone when it returns. *)
Theorem C9_apply_yaml_returns_text yaml_content (w : World Cluster)
  result written c :
  let temp_file := temp_name (files w) in
  subprocess_run ["kubectl"; "apply"; "-f"; temp_file]
    (<[temp_file := yaml_content]> (files w)) (cluster w)
  = (Ok (result, written), c) ->
  exists text w',
    apply_yaml yaml_content w = (Ok text, w') /\
    (returncode result = 0 -> text = stdout result) /\
    (returncode result <> 0 -> text = stderr result) /\
    files w' !! temp_file = None.
Proof.
  intros temp_file Hrun. rewrite apply_yaml_unfold. fold temp_file. rewrite Hrun.
  do 2 eexists. split; [done|]. simpl. repeat split.
  - by intros ->.
  - intros Hrc. by destruct (Z.eqb_spec (returncode result) 0).
  - apply lookup_delete_eq.
Qed.

(** C10, amended.  A replicas field that is left out becomes 1, and the
    manifest is generated with replicas 1, namespace "default" and
    containerPort 80: in the JSON format when the object has no key
    [replicas], in the whitespace format when there are exactly two fields,
    and in the key=value format when no occurrence of the text [replicas=]
    anywhere in the input, inside another key or inside a value as well, is
    directly followed by a decimal digit.  So [replicas=-3] and
    [replicas=two] are ignored and nothing is raised, as long as the input
    has no other [replicas=] with a digit after it. *)
Theorem C10_replicas_default s name image replicas (w : World Cluster) :
  parse_tool_input s = Ok (name, image, replicas) ->
  (exists pairs,
     json_loads s = Some (PyDict pairs) /\ dict_lookup "replicas" pairs = None)
  \/ (json_loads s = None /\ contains "=" s = true /\
      forall pre post,
        s = pre +:+ "replicas=" +:+ post -> take_while isdigit post = EmptyString)
  \/ (json_loads s = None /\ contains "=" s = false /\
      length (py_split s) = 2%nat) ->
  replicas = PyInt 1 /\
  CreateDeploymentTool_run s w
  = apply_yaml
      (yaml_dump (deployment name image (PyInt 1) (PyStr "default") (PyInt 80))) w.
Proof.
  intros Hp Hcase.
  assert (Hr : replicas = PyInt 1).
  { revert Hp. unfold parse_tool_input.
    destruct Hcase as [(pairs & -> & Hnone) | [(-> & -> & Hno) | (-> & -> & Hlen)]].
    - simpl. rewrite Hnone. by intros [= _ _ <-].
    - apply re_search_None in Hno. rewrite Hno.
      destruct (re_search "name=" _ s); [|done].
      destruct (re_search "image=" _ s); [|done].
      simpl. by intros [= _ _ <-].
    - destruct (py_split s) as [|n [|i [|third rest]]]; try done.
      simpl. by intros [= _ _ <-]. }
  subst replicas. split; [done|]. by apply run_parsed.
Qed.

(** ** More about the string functions *)
Section MoreStrings.

Local Arguments Ascii.eqb : simpl never.

Lemma append_cons c a b : String c a +:+ b = String c (a +:+ b).
Proof. reflexivity. Qed.

Lemma append_nil b : EmptyString +:+ b = b.
Proof. reflexivity. Qed.

Lemma append_assoc_str a b c : (a +:+ b) +:+ c = a +:+ b +:+ c.
Proof.
  induction a as [|x a IH]; [done|]. by rewrite !append_cons, IH.
Qed.

Lemma append_nil_r a : a +:+ EmptyString = a.
Proof.
  induction a as [|x a IH]; [done|]. by rewrite append_cons, IH.
Qed.

Lemma contains_app c a b : contains c (a +:+ b) = contains c a || contains c b.
Proof.
  induction a as [|x a IH]; [done|].
  rewrite append_cons. simpl. by rewrite IH, orb_assoc.
Qed.

Lemma take_while_app cls v rest :
  all_in cls v = true -> take_while cls rest = EmptyString ->
  take_while cls (v +:+ rest) = v.
Proof.
  intros Hv Hrest. induction v as [|c v IH]; [done|].
  simpl in Hv. apply andb_true_iff in Hv as [Hc Hv].
  rewrite append_cons. simpl. by rewrite Hc, IH.
Qed.

Lemma drop_while_app p pad s :
  all_in p pad = true -> drop_while p (pad +:+ s) = drop_while p s.
Proof.
  induction pad as [|c pad IH]; [done|]. simpl.
  rewrite andb_true_iff. intros [Hc Hpad]. by rewrite Hc, IH.
Qed.

Lemma rstrip_spaces pad : all_in isspace pad = true -> rstrip pad = EmptyString.
Proof.
  induction pad as [|c pad IH]; [done|]. simpl.
  rewrite andb_true_iff. intros [Hc Hpad]. by rewrite (IH Hpad), Hc.
Qed.

Lemma rstrip_token_app word pad :
  word <> EmptyString ->
  all_in (fun c => negb (isspace c)) word = true ->
  all_in isspace pad = true ->
  rstrip (word +:+ pad) = word.
Proof.
  intros Hne Hword Hpad. induction word as [|c word IH]; [done|].
  simpl in Hword. apply andb_true_iff in Hword as [Hc Hword].
  apply negb_true_iff in Hc. rewrite append_cons. simpl.
  destruct word as [|c' word].
  - rewrite append_nil, (rstrip_spaces pad Hpad). by rewrite Hc.
  - by rewrite IH.
Qed.

(** [strip] drops the white space around a word and nothing of the word. *)
Lemma py_strip_padded pad1 word pad2 :
  word <> EmptyString ->
  all_in (fun c => negb (isspace c)) word = true ->
  all_in isspace pad1 = true -> all_in isspace pad2 = true ->
  py_strip (pad1 +:+ word +:+ pad2) = word.
Proof.
  intros Hne Hword H1 H2. unfold py_strip. rewrite (drop_while_app _ _ _ H1).
  destruct word as [|c word]; [done|].
  pose proof Hword as Hw. simpl in Hw. apply andb_true_iff in Hw as [Hc _].
  apply negb_true_iff in Hc.
  rewrite append_cons, (drop_while_head _ _ _ Hc), <- append_cons.
  by apply rstrip_token_app.
Qed.

Lemma lower_char_space c : isspace (lower_char c) = isspace c.
Proof. by destruct c as [[] [] [] [] [] [] [] []]. Qed.

Lemma py_lower_no_space s :
  all_in (fun c => negb (isspace c)) (py_lower s)
  = all_in (fun c => negb (isspace c)) s.
Proof.
  induction s as [|c s IH]; [done|]. simpl. by rewrite lower_char_space, IH.
Qed.

Lemma isspace_not_equals c : isspace c = true -> Ascii.eqb "=" c = false.
Proof. destruct c as [[] [] [] [] [] [] [] []]; vm_compute; congruence. Qed.

Lemma spaces_no_equals pad : all_in isspace pad = true -> contains "=" pad = false.
Proof.
  induction pad as [|c pad IH]; [done|]. cbn [contains all_in].
  rewrite andb_true_iff. intros [Hc Hpad].
  by rewrite (isspace_not_equals c Hc), (IH Hpad).
Qed.

Lemma re_search_cons lit cls c s :
  re_search lit cls (String c s)
  = match match_here lit cls (String c s) with
    | Some g => Some g
    | None => re_search lit cls s
    end.
Proof. reflexivity. Qed.

Lemma re_search_skip_char lit cls c s :
  strip_prefix lit (String c s) = None ->
  re_search lit cls (String c s) = re_search lit cls s.
Proof. intros H. rewrite re_search_cons. unfold match_here. by rewrite H. Qed.

(** A key cannot start inside a value that a comma ends: the key has an
    equals sign and no comma, the value has no equals sign. *)
Lemma strip_prefix_token lit : forall p rest,
  contains "=" p = false -> contains "," lit = false -> contains "=" lit = true ->
  strip_prefix lit (p +:+ String "," rest) = None.
Proof.
  induction lit as [|a lit IH]; intros p rest Hp Hc He; [done|].
  simpl in Hc, He. apply orb_false_iff in Hc as [Hca Hc].
  destruct p as [|c p].
  - rewrite append_nil. simpl. by rewrite Ascii.eqb_sym, Hca.
  - rewrite append_cons. simpl.
    destruct (Ascii.eqb a c) eqn:Hac; [|done].
    apply Ascii.eqb_eq in Hac as ->.
    simpl in Hp. apply orb_false_iff in Hp as [Hpc Hp].
    rewrite Hpc in He. by apply IH.
Qed.

Lemma re_search_token_skip lit cls p rest :
  contains "=" p = false -> contains "," lit = false -> contains "=" lit = true ->
  re_search lit cls (p +:+ String "," rest) = re_search lit cls (String "," rest).
Proof.
  intros Hp Hc He. induction p as [|c p IH]; [done|].
  rewrite append_cons, re_search_skip_char.
  - simpl in Hp. apply orb_false_iff in Hp as [_ Hp]. by apply IH.
  - rewrite <- append_cons. by apply strip_prefix_token.
Qed.

(** A key with an equals sign is not found in a text without one. *)
Lemma re_search_no_equals lit cls p :
  contains "=" p = false -> contains "=" lit = true ->
  re_search lit cls p = None.
Proof.
  intros Hp He. apply re_search_None. intros pre post ->.
  rewrite !contains_app, He, orb_true_r in Hp. done.
Qed.

(** The key followed by a value of the class, which ends where the class
    ends, is found on the spot. *)
Lemma re_search_here lit cls v rest :
  v <> EmptyString -> all_in cls v = true -> take_while cls rest = EmptyString ->
  re_search lit cls (lit +:+ v +:+ rest) = Some v.
Proof.
  intros Hne Hv Hrest.
  assert (Hm : match_here lit cls (lit +:+ v +:+ rest) = Some v).
  { unfold match_here. rewrite strip_prefix_app, (take_while_app _ _ _ Hv Hrest).
    by destruct v. }
  destruct (lit +:+ v +:+ rest); simpl; by rewrite Hm.
Qed.

Lemma split_from_token t : forall cur rest,
  all_in (fun c => negb (isspace c)) t = true ->
  split_from cur (t +:+ rest) = split_from (cur +:+ t) rest.
Proof.
  induction t as [|c t IH]; intros cur rest Ht.
  - by rewrite append_nil, append_nil_r.
  - simpl in Ht. apply andb_true_iff in Ht as [Hc Ht].
    apply negb_true_iff in Hc. rewrite append_cons. simpl. rewrite Hc.
    rewrite (IH _ _ Ht), append_assoc_str. by rewrite append_cons, append_nil.
Qed.

Lemma split_from_spaces pad : forall rest,
  all_in isspace pad = true ->
  split_from EmptyString (pad +:+ rest) = split_from EmptyString rest.
Proof.
  induction pad as [|c pad IH]; intros rest; [done|]. simpl.
  rewrite andb_true_iff. intros [Hc Hpad]. by rewrite Hc, IH.
Qed.

Lemma split_from_word_spaces cur pad rest :
  cur <> EmptyString -> pad <> EmptyString -> all_in isspace pad = true ->
  split_from cur (pad +:+ rest) = cur :: split_from EmptyString rest.
Proof.
  intros Hcur Hne Hpad. destruct pad as [|c pad]; [done|].
  simpl in Hpad. apply andb_true_iff in Hpad as [Hc Hpad].
  rewrite append_cons. simpl. rewrite Hc.
  destruct cur; [done|]. by rewrite split_from_spaces.
Qed.

Lemma split_from_end cur pad :
  cur <> EmptyString -> all_in isspace pad = true ->
  split_from cur pad = [cur].
Proof.
  intros Hcur Hpad. destruct pad as [|c pad].
  - simpl. by destruct cur.
  - rewrite <- (append_nil_r (String c pad)).
    rewrite split_from_word_spaces by done. done.
Qed.

(** The parts that [split] returns hold no white space. *)
Lemma split_from_no_space s : forall cur,
  all_in (fun c => negb (isspace c)) cur = true ->
  Forall (fun part => all_in (fun c => negb (isspace c)) part = true)
    (split_from cur s).
Proof.
  induction s as [|c s IH]; intros cur Hcur; simpl.
  - destruct cur; [constructor | by repeat constructor].
  - destruct (isspace c) eqn:Hc.
    + destruct cur; [by apply IH | constructor; [done | by apply IH]].
    + apply IH. clear IH. induction cur as [|x cur IHc]; simpl.
      * by rewrite Hc.
      * simpl in Hcur. apply andb_true_iff in Hcur as [Hx Hcur].
        by rewrite Hx, IHc.
Qed.

End MoreStrings.

(** ** More about the tool *)

Lemma py_int_raises s e : py_int s = Raise e -> exists msg, e = ValueError msg.
Proof.
  unfold py_int.
  destruct (match py_strip s with
            | String "-" r => (true, r)
            | String "+" r => (false, r)
            | _ => (false, py_strip s)
            end) as [negative body].
  destruct (int_literal body); [|intros [= <-]; by eexists].
  destruct (_ <=? _)%nat; [done|]. intros [= <-]. by eexists.
Qed.

(** The parsing raises [AttributeError] or [ValueError] and nothing else. *)
Lemma parse_tool_input_raises s e :
  parse_tool_input s = Raise e ->
  e = AttributeError \/ exists msg, e = ValueError msg.
Proof.
  unfold parse_tool_input. destruct (json_loads s) as [data|].
  - destruct data; simpl; intros [= <-]; by left.
  - destruct (contains "=" s).
    + destruct (re_search "name=" _ s); [|intros [= <-]; right; by eexists].
      destruct (re_search "image=" _ s); [|intros [= <-]; right; by eexists].
      destruct (re_search "replicas=" _ s) as [ds|]; [|done].
      destruct (py_int ds) as [z|e'] eqn:Hz; [done|]. simpl.
      intros [= <-]. right. by apply (py_int_raises ds).
    + destruct (py_split s) as [|n [|i [|third rest]]];
        try (intros [= <-]; right; by eexists).
      destruct (py_int third) as [z|e'] eqn:Hz; [done|]. simpl.
      intros [= <-]. right. by apply (py_int_raises third).
Qed.

Lemma json_loads_name rest : json_loads ("name=" +:+ rest) = None.
Proof. reflexivity. Qed.

Lemma not_comma_space_no_comma v :
  all_in not_comma_space v = true -> contains "," v = false.
Proof.
  induction v as [|c v IH]; [done|]. cbn [all_in contains].
  unfold not_comma_space at 1. rewrite !andb_true_iff, negb_true_iff.
  intros [[Hc _] Hv]. by rewrite Ascii.eqb_sym, Hc, IH.
Qed.

Lemma not_comma_space_no_space v :
  all_in not_comma_space v = true ->
  all_in (fun c => negb (isspace c)) v = true.
Proof.
  apply all_in_impl. intros c. unfold not_comma_space.
  rewrite andb_true_iff. by intros [_ ?].
Qed.

(** The three searches of the key=value branch on a text of the shape
    [name=N, image=I] with a tail that is empty or starts with a comma. *)
Lemma key_value_searches n i tail :
  n <> EmptyString -> all_in not_comma_space n = true -> contains "=" n = false ->
  i <> EmptyString -> all_in not_comma_space i = true -> contains "=" i = false ->
  tail = EmptyString \/ (exists r, tail = String "," r) ->
  let s := "name=" +:+ n +:+ ", image=" +:+ i +:+ tail in
  re_search "name=" not_comma_space s = Some n /\
  re_search "image=" not_comma_space s = Some i /\
  re_search "replicas=" isdigit s = re_search "replicas=" isdigit tail.
Proof.
  intros Hn Hnc Hne Hi Hic Hie Htail s.
  assert (Hstop : take_while not_comma_space tail = EmptyString).
  { by destruct Htail as [-> | [r ->]]. }
  subst s. repeat split.
  - by apply re_search_here.
  - rewrite !append_cons, !append_nil.
    rewrite !re_search_skip_char by reflexivity.
    rewrite re_search_token_skip by done.
    rewrite !re_search_skip_char by reflexivity.
    by apply (re_search_here "image=").
  - rewrite !append_cons, !append_nil.
    rewrite !re_search_skip_char by reflexivity.
    rewrite re_search_token_skip by done.
    rewrite !re_search_skip_char by reflexivity.
    destruct Htail as [-> | [r ->]].
    + rewrite append_nil_r. by apply re_search_no_equals.
    + by rewrite re_search_token_skip.
Qed.

(** X1.  The key=value format gives back what was written.  For a name and an
    image that are non-empty and hold no comma, white space or equals sign,
    [name=N, image=I] parses to (N, I, 1), and with [, replicas=D] after
    it, D a run of digits, to (N, I, int(D)) when D has no more digits than
    [int] converts, 4300; with more digits [int] raises [ValueError], and so
    does the parsing. *)
Theorem key_value_round_trip (n i : string) :
  n <> EmptyString -> all_in not_comma_space n = true -> contains "=" n = false ->
  i <> EmptyString -> all_in not_comma_space i = true -> contains "=" i = false ->
  parse_tool_input ("name=" +:+ n +:+ ", image=" +:+ i)
  = Ok (PyStr n, PyStr i, PyInt 1) /\
  forall digits,
    digits <> EmptyString -> all_in isdigit digits = true ->
    ((String.length digits <= int_max_str_digits)%nat ->
     exists z,
       py_int digits = Ok z /\ 0 <= z /\
       parse_tool_input
         ("name=" +:+ n +:+ ", image=" +:+ i +:+ ", replicas=" +:+ digits)
       = Ok (PyStr n, PyStr i, PyInt z)) /\
    ((int_max_str_digits < String.length digits)%nat ->
     exists msg,
       py_int digits = Raise (ValueError msg) /\
       parse_tool_input
         ("name=" +:+ n +:+ ", image=" +:+ i +:+ ", replicas=" +:+ digits)
       = Raise (ValueError msg)).
Proof.
  intros Hn Hnc Hne Hi Hic Hie. split.
  - destruct (key_value_searches n i EmptyString) as (H1 & H2 & H3); try done.
    { by left. }
    rewrite append_nil_r in H1, H2, H3.
    unfold parse_tool_input. rewrite json_loads_name.
    replace (contains "=" ("name=" +:+ n +:+ ", image=" +:+ i)) with true
      by reflexivity.
    by rewrite H1, H2, H3.
  - intros digits Hd Hdd.
    destruct (key_value_searches n i (", replicas=" +:+ digits))
      as (H1 & H2 & H3); try done.
    { right. by eexists. }
    assert (Hparse : forall r,
      py_int digits = r ->
      parse_tool_input
        ("name=" +:+ n +:+ ", image=" +:+ i +:+ ", replicas=" +:+ digits)
      = match r with
        | Ok z => Ok (PyStr n, PyStr i, PyInt z)
        | Raise e => Raise e
        end).
    { intros r Hr. unfold parse_tool_input. rewrite json_loads_name.
      replace (contains "=" ("name=" +:+ n +:+ ", image=" +:+ i +:+
                             ", replicas=" +:+ digits)) with true by reflexivity.
      rewrite H1, H2, H3.
      replace (re_search "replicas=" isdigit (", replicas=" +:+ digits))
        with (Some digits).
      { rewrite Hr. by destruct r. }
      symmetry. rewrite !append_cons, !append_nil.
      rewrite !re_search_skip_char by reflexivity.
      rewrite <- (append_nil_r digits) at 1.
      by apply (re_search_here "replicas="). }
    split.
    + intros Hlen. destruct (py_int_digits digits Hdd Hd Hlen) as (z & Hz & Hz0).
      exists z. split; [done|]. split; [done|]. by rewrite (Hparse _ Hz).
    + intros Hlen. destruct (py_int_of_digits digits Hdd Hd) as (z & _ & Hz).
      rewrite (count_digits_all digits Hdd) in Hz.
      destruct (Nat.leb_spec (String.length digits) int_max_str_digits); [lia|].
      eexists. split; [done|]. by rewrite (Hparse _ Hz).
Qed.

(** X2.  The whitespace format gives back what was written.  For a name and
    an image that are non-empty and hold no white space or equals sign, a
    text that is not JSON and is made of the name, white space and the
    image, with any white space around, parses to (name, image, 1). *)
Theorem words_round_trip (pad0 n pad1 i pad2 : string) :
  all_in isspace pad0 = true -> all_in isspace pad2 = true ->
  pad1 <> EmptyString -> all_in isspace pad1 = true ->
  n <> EmptyString -> all_in (fun c => negb (isspace c)) n = true ->
  contains "=" n = false ->
  i <> EmptyString -> all_in (fun c => negb (isspace c)) i = true ->
  contains "=" i = false ->
  json_loads (pad0 +:+ n +:+ pad1 +:+ i +:+ pad2) = None ->
  parse_tool_input (pad0 +:+ n +:+ pad1 +:+ i +:+ pad2)
  = Ok (PyStr n, PyStr i, PyInt 1).
Proof.
  intros H0 H2 Hp1 H1 Hn Hns Hne Hi His Hie Hj.
  unfold parse_tool_input. rewrite Hj.
  rewrite !contains_app, Hne, Hie, !spaces_no_equals by done. simpl.
  unfold py_split.
  rewrite split_from_spaces, split_from_token by done.
  rewrite append_nil, split_from_word_spaces by done.
  rewrite split_from_token, append_nil by done.
  by rewrite split_from_end.
Qed.

(** X3.  What the text formats can give.  A name and an image read from a
    text that is not JSON hold no white space, and none read from the
    key=value format holds a comma. *)
Theorem text_format_tokens s (n i : string) r :
  json_loads s = None ->
  parse_tool_input s = Ok (PyStr n, PyStr i, r) ->
  all_in (fun c => negb (isspace c)) n = true /\
  all_in (fun c => negb (isspace c)) i = true /\
  (contains "=" s = true -> contains "," n = false /\ contains "," i = false).
Proof.
  intros Hj. unfold parse_tool_input. rewrite Hj.
  destruct (contains "=" s).
  - destruct (re_search "name=" _ s) as [n'|] eqn:Hn; [|done].
    destruct (re_search "image=" _ s) as [i'|] eqn:Hi; [|done].
    destruct (re_search_Some _ _ _ _ Hn) as (_ & Hnc & _).
    destruct (re_search_Some _ _ _ _ Hi) as (_ & Hic & _).
    destruct (match re_search "replicas=" isdigit s with
              | Some digits => py_int digits
              | None => Ok 1
              end); [|done].
    simpl. intros [= <- <- _].
    repeat split; auto using not_comma_space_no_space, not_comma_space_no_comma.
  - pose proof (split_from_no_space s EmptyString eq_refl) as Hparts.
    fold (py_split s) in Hparts.
    destruct (py_split s) as [|n' [|i' rest]]; [done|done|].
    inversion Hparts as [|? ? Hn' Hrest]; subst.
    inversion Hrest as [|? ? Hi' _]; subst.
    destruct (match rest with [] => Ok 1 | third :: _ => py_int third end);
      [|done].
    simpl. intros [= <- <- _]. by repeat split.
Qed.

(** X4.  What [_run] does to the world, by what the decoder returns.  On
    a text that is not JSON, either [ValueError] is raised and the world is
    as before: no file written, no process spawned; or the text parses and
    exactly one process is spawned, [kubectl apply -f] on the temporary
    file.  On a text that decodes to a value, either that value is not an
    object, [AttributeError] is raised and the world is as before; or it is
    an object and, whatever its keys, exactly one process is spawned. *)
Theorem run_effects s (w : World Cluster) :
  (json_loads s = None ->
   (exists msg, CreateDeploymentTool_run s w = (Raise (ValueError msg), w)) \/
   (exists (n i : string) z,
      parse_tool_input s = Ok (PyStr n, PyStr i, PyInt z) /\
      spawned (snd (CreateDeploymentTool_run s w))
      = (spawned w ++ [["kubectl"; "apply"; "-f"; temp_name (files w)]])%list)) /\
  (forall data, json_loads s = Some data ->
   ((forall pairs, data <> PyDict pairs) /\
    CreateDeploymentTool_run s w = (Raise AttributeError, w)) \/
   (exists pairs,
      data = PyDict pairs /\
      spawned (snd (CreateDeploymentTool_run s w))
      = (spawned w ++ [["kubectl"; "apply"; "-f"; temp_name (files w)]])%list)).
Proof.
  split.
  - intros Hj.
    destruct (parse_tool_input s) as [[[name image] replicas]|e] eqn:Hp.
    + right. rewrite (run_parsed _ _ _ _ w Hp).
      revert Hp. unfold parse_tool_input. rewrite Hj.
      destruct (contains "=" s).
      * destruct (re_search "name=" _ s) as [n|]; [|done].
        destruct (re_search "image=" _ s) as [i|]; [|done].
        destruct (match re_search "replicas=" isdigit s with
                  | Some digits => py_int digits
                  | None => Ok 1
                  end) as [z|]; [|done].
        simpl. intros [= <- <- <-]. exists n, i, z.
        split; [done | apply apply_yaml_spawned].
      * destruct (py_split s) as [|n [|i rest]]; [done|done|].
        destruct (match rest with [] => Ok 1 | third :: _ => py_int third end)
          as [z|]; [|done].
        simpl. intros [= <- <- <-]. exists n, i, z.
        split; [done | apply apply_yaml_spawned].
    + left. rewrite (run_raised _ _ w Hp).
      destruct (parse_tool_input_raises s e Hp) as [-> | [msg ->]].
      * revert Hp. unfold parse_tool_input. rewrite Hj.
        destruct (contains "=" s).
        -- destruct (re_search "name=" _ s); [|done].
           destruct (re_search "image=" _ s); [|done].
           destruct (re_search "replicas=" _ s) as [ds|]; [|done].
           destruct (py_int ds) as [z|e'] eqn:Hz; [done|].
           destruct (py_int_raises _ _ Hz) as [msg ->]. done.
        -- destruct (py_split s) as [|n [|i [|third rest]]]; try done.
           destruct (py_int third) as [z|e'] eqn:Hz; [done|].
           destruct (py_int_raises _ _ Hz) as [msg ->]. done.
      * by exists msg.
  - intros data Hj.
    destruct data as [| | | | |items|pairs];
      try (left; split; [done|]; apply run_raised; unfold parse_tool_input;
           by rewrite Hj).
    right. exists pairs. split; [done|].
    assert (Hp : parse_tool_input s
                 = Ok (default PyNone (dict_lookup "name" pairs),
                       default PyNone (dict_lookup "image" pairs),
                       default (PyInt 1) (dict_lookup "replicas" pairs))).
    { unfold parse_tool_input. rewrite Hj. simpl.
      by destruct (dict_lookup "name" pairs), (dict_lookup "image" pairs),
        (dict_lookup "replicas" pairs). }
    rewrite (run_parsed _ _ _ _ w Hp). apply apply_yaml_spawned.
Qed.

(** X5.  When [kubectl] cannot be started, [apply_yaml] passes the exception
    on and leaves the temporary file behind, with the manifest in it:
    [os.unlink] is not reached. *)
Theorem apply_yaml_leaks_temp_file yaml_content (w : World Cluster) e c :
  subprocess_run ["kubectl"; "apply"; "-f"; temp_name (files w)]
    (<[temp_name (files w) := yaml_content]> (files w)) (cluster w)
  = (Raise e, c) ->
  exists w',
    apply_yaml yaml_content w = (Raise e, w') /\
    files w' !! temp_name (files w) = Some yaml_content /\
    cluster w' = c.
Proof.
  intros Hrun. rewrite apply_yaml_unfold. cbv zeta. rewrite Hrun.
  eexists. split; [done|]. simpl. split; [apply lookup_insert_eq | done].
Qed.

(** X6.  [apply_yaml] and the files.  When the name of the temporary file
    is not taken and [kubectl] completes, the files after [apply_yaml] are
    the files before it with what the process wrote, less the temporary
    file: a file the process did not write is there as before, and the
    temporary file is not. *)
Theorem apply_yaml_keeps_files yaml_content (w : World Cluster)
  result written c :
  let temp_file := temp_name (files w) in
  files w !! temp_file = None ->
  subprocess_run ["kubectl"; "apply"; "-f"; temp_file]
    (<[temp_file := yaml_content]> (files w)) (cluster w)
  = (Ok (result, written), c) ->
  exists text w',
    apply_yaml yaml_content w = (Ok text, w') /\
    files w' = delete temp_file (written ∪ files w) /\
    forall path,
      written !! path = None -> files w' !! path = files w !! path.
Proof.
  intros temp_file Hfresh Hrun. rewrite apply_yaml_unfold. fold temp_file.
  rewrite Hrun. do 2 eexists. split; [done|]. simpl.
  assert (Hfiles :
    delete temp_file (written ∪ <[temp_file := yaml_content]> (files w))
    = delete temp_file (written ∪ files w)).
  { apply map_eq. intros path. destruct (decide (path = temp_file)) as [->|Hne].
    - by rewrite !lookup_delete_eq.
    - rewrite !lookup_delete_ne by done.
      destruct (written !! path) as [x|] eqn:Hw.
      + by rewrite !(lookup_union_Some_l _ _ _ _ Hw).
      + by rewrite !lookup_union_r, lookup_insert_ne. }
  split; [done|]. intros path Hw. rewrite Hfiles.
  destruct (decide (path = temp_file)) as [->|Hne].
  - by rewrite lookup_delete_eq, Hfresh.
  - by rewrite lookup_delete_ne, lookup_union_r.
Qed.

(** *** The JSON format on a plain object *)

(** A string literal without escapes is read as it is written. *)
Lemma scanstring_plain v : forall (acc rest : string),
  all_in json_plain v = true ->
  scanstring acc (v +:+ String dquote rest) = Some (Latin (acc +:+ v), rest).
Proof.
  induction v as [|c v IH]; intros acc rest Hv.
  - rewrite append_nil, append_nil_r. cbn [scanstring]. by rewrite Ascii.eqb_refl.
  - cbn [all_in] in Hv. apply andb_true_iff in Hv as [Hc Hv].
    unfold json_plain in Hc. rewrite !andb_true_iff, !negb_true_iff in Hc.
    destruct Hc as [[Hq Hb] Hctl].
    rewrite append_cons. cbn [scanstring]. rewrite Hq, Hb, Hctl.
    cbn [push_char].
    rewrite (IH _ _ Hv), append_assoc_str. by rewrite append_cons, append_nil.
Qed.

(** Evaluation of the decoder on a text with unknown parts: the tests on
    known characters are computed, one call of the decoder at a time. *)
Ltac eval_closed_tests :=
  repeat match goal with
  | |- context [Ascii.eqb ?a ?b] =>
      let v := eval vm_compute in (Ascii.eqb a b) in
      lazymatch v with
      | true => change (Ascii.eqb a b) with true
      | false => change (Ascii.eqb a b) with false
      end
  | |- context [json_ws ?a] =>
      let v := eval vm_compute in (json_ws a) in
      lazymatch v with
      | true => change (json_ws a) with true
      | false => change (json_ws a) with false
      end
  | |- context [N.ltb (code ?a) 32] =>
      let v := eval vm_compute in (N.ltb (code a) 32) in
      lazymatch v with
      | true => change (N.ltb (code a) 32) with true
      | false => change (N.ltb (code a) 32) with false
      end
  end.

Ltac decoder_step :=
  cbn [scan_once JSONObject skip_ws drop_while scanstring escape_char dq
       push_char String.append app dict_of_pairs fold_left dict_set fst snd];
  eval_closed_tests; cbv iota.

(** X10.  The JSON format gives back what was written.  For a name and an
    image made of characters that need no escape, the object with the keys
    name and image parses to (name, image, 1). *)
Theorem json_round_trip (n i : string) :
  all_in json_plain n = true -> all_in json_plain i = true ->
  parse_tool_input
    (dq "{'name': '" +:+ n +:+ dq "', 'image': '" +:+ i +:+ dq "'}")
  = Ok (PyStr n, PyStr i, PyInt 1).
Proof.
  intros Hn Hi. unfold parse_tool_input, json_loads.
  set (s := dq "{'name': '" +:+ n +:+ dq "', 'image': '" +:+ i +:+ dq "'}").
  assert (Hfuel : exists f, (2 * String.length s + 2)%nat = S (S (S (S f)))).
  { assert (1 <= String.length s)%nat by (subst s; simpl; lia).
    exists (2 * String.length s - 2)%nat. lia. }
  destruct Hfuel as [f0 ->]. subst s.
  remember (S f0) as f1 eqn:E1. remember (S f1) as f2 eqn:E2.
  remember (S f2) as f3 eqn:E3.
  cbn [dq]. eval_closed_tests. cbv iota.
  rewrite !append_cons, !append_nil.
  repeat (progress decoder_step). rewrite E3.
  repeat (progress decoder_step). rewrite E2.
  repeat (progress decoder_step). rewrite (scanstring_plain n) by done.
  repeat (progress decoder_step). rewrite E1.
  repeat (progress decoder_step). rewrite (scanstring_plain i) by done.
  repeat (progress decoder_step).
  reflexivity.
Qed.

(** X11.  In the key=value format the keys may come in the other order:
    [image=I, name=N] parses to (N, I, 1) as well. *)
Theorem key_value_other_order (n i : string) :
  n <> EmptyString -> all_in not_comma_space n = true -> contains "=" n = false ->
  i <> EmptyString -> all_in not_comma_space i = true -> contains "=" i = false ->
  parse_tool_input ("image=" +:+ i +:+ ", name=" +:+ n)
  = Ok (PyStr n, PyStr i, PyInt 1).
Proof.
  intros Hn Hnc Hne Hi Hic Hie.
  unfold parse_tool_input.
  replace (json_loads ("image=" +:+ i +:+ ", name=" +:+ n)) with (@None pyval)
    by reflexivity.
  replace (contains "=" ("image=" +:+ i +:+ ", name=" +:+ n)) with true
    by reflexivity.
  assert (H1 : re_search "name=" not_comma_space
                 ("image=" +:+ i +:+ ", name=" +:+ n) = Some n).
  { rewrite !append_cons, !append_nil.
    rewrite !re_search_skip_char by reflexivity.
    rewrite re_search_token_skip by done.
    rewrite !re_search_skip_char by reflexivity.
    rewrite <- (append_nil_r n) at 1. by apply (re_search_here "name="). }
  assert (H2 : re_search "image=" not_comma_space
                 ("image=" +:+ i +:+ ", name=" +:+ n) = Some i).
  { by apply re_search_here. }
  assert (H3 : re_search "replicas=" isdigit
                 ("image=" +:+ i +:+ ", name=" +:+ n) = None).
  { rewrite !append_cons, !append_nil.
    rewrite !re_search_skip_char by reflexivity.
    rewrite re_search_token_skip by done.
    rewrite !re_search_skip_char by reflexivity.
    by apply re_search_no_equals. }
  by rewrite H1, H2, H3.
Qed.

(** ** The command loop *)

(** The turns on lines that are not an exit command are the turns of
    [answers]. *)
Lemma main_loop_answers lines : forall k rest console (w : World Cluster),
  Forall (fun line => py_lower (py_strip line) ∉ ["exit"; "quit"]) lines ->
  main_loop (length lines + k) (lines ++ rest) console w
  = main_loop k rest (answers lines console w).1 (answers lines console w).2.
Proof.
  induction lines as [|line lines IH]; intros k rest console w Hl; [done|].
  inversion Hl as [|? ? Hline Hlines]; subst.
  cbn [length Nat.add app main_loop answers]. case_decide; [done|].
  destruct (agent_run (py_strip line) w) as [[result|e] w'];
    rewrite <- app_assoc; by apply IH.
Qed.

Lemma main_loop_eof fuel : forall console (w : World Cluster),
  main_loop fuel [] console w
  = (Running,
     (console ++ concat (replicate fuel [Prompt; ErrorSays EOFError]))%list, w).
Proof.
  induction fuel as [|fuel IH]; intros console w.
  - cbn. by rewrite app_nil_r.
  - cbn [main_loop replicate concat]. rewrite IH. by rewrite <- !app_assoc.
Qed.

(** X7.  [exit] and [quit] are taken in any mix of cases and with any white
    space around: the loop ends on such a line without running the agent,
    and the world is as before. *)
Theorem exit_recognised pad1 word pad2 fuel after console (w : World Cluster) :
  all_in isspace pad1 = true -> all_in isspace pad2 = true ->
  py_lower word ∈ ["exit"; "quit"] ->
  main_loop (S fuel) ((pad1 +:+ word +:+ pad2) :: after) console w
  = (Exited, (console ++ [Prompt])%list, w).
Proof.
  intros H1 H2 Hword.
  assert (Hclean : all_in (fun c => negb (isspace c)) word = true).
  { rewrite <- py_lower_no_space.
    apply elem_of_cons in Hword as [-> | Hword]; [done|].
    apply list_elem_of_singleton in Hword as ->. done. }
  assert (Hne : word <> EmptyString).
  { intros ->. apply elem_of_cons in Hword as [? | Hword]; [done|].
    by apply list_elem_of_singleton in Hword. }
  cbn [main_loop]. rewrite (py_strip_padded _ _ _ Hne Hclean H1 H2).
  by case_decide.
Qed.

(** X8.  The loop ends at the first exit command.  Every line before it is
    passed, stripped, to the agent, and an exception of the agent is
    reported and does not end the loop; the lines after it are not read. *)
Theorem loop_until_exit before line after fuel console (w : World Cluster) :
  Forall (fun l => py_lower (py_strip l) ∉ ["exit"; "quit"]) before ->
  py_lower (py_strip line) ∈ ["exit"; "quit"] ->
  (length before < fuel)%nat ->
  main_loop fuel (before ++ line :: after) console w
  = (Exited, ((answers before console w).1 ++ [Prompt])%list,
     (answers before console w).2).
Proof.
  intros Hbefore Hline Hfuel.
  replace fuel with (length before + S (fuel - S (length before)))%nat by lia.
  rewrite (main_loop_answers _ _ _ _ _ Hbefore).
  cbn [main_loop]. by case_decide.
Qed.

Lemma main_loop_running fuel : forall stdin console (w : World Cluster),
  Forall (fun l => py_lower (py_strip l) ∉ ["exit"; "quit"]) stdin ->
  (main_loop fuel stdin console w).1.1 = Running.
Proof.
  induction fuel as [|fuel IH]; intros stdin console w Hl; [done|].
  destruct stdin as [|line rest].
  - by rewrite main_loop_eof.
  - inversion Hl as [|? ? Hline Hrest]; subst.
    cbn [main_loop]. case_decide; [done|].
    destruct (agent_run (py_strip line) w) as [[result|e] w']; by apply IH.
Qed.

(** X9.  Without an exit command the loop does not end.  However many turns
    it is given it is still running, and once the input is used up every
    further turn prompts and reports the [EOFError] of [input]. *)
Theorem loop_without_exit stdin fuel console (w : World Cluster) :
  Forall (fun l => py_lower (py_strip l) ∉ ["exit"; "quit"]) stdin ->
  (main_loop fuel stdin console w).1.1 = Running /\
  ((length stdin <= fuel)%nat ->
   main_loop fuel stdin console w
   = (Running,
      ((answers stdin console w).1
       ++ concat (replicate (fuel - length stdin) [Prompt; ErrorSays EOFError]))%list,
      (answers stdin console w).2)).
Proof.
  intros Hl. split; [by apply main_loop_running|]. intros Hfuel.
  assert (Hsplit :
    main_loop fuel stdin console w
    = main_loop (length stdin + (fuel - length stdin)) (stdin ++ []) console w).
  { rewrite app_nil_r. f_equal. lia. }
  rewrite Hsplit, (main_loop_answers _ _ _ _ _ Hl). apply main_loop_eof.
Qed.

End Tool.

(** * The tool on concrete inputs *)

(** ** The library functions *)

Example py_int_3 : py_int "3" = Ok 3.
Proof. reflexivity. Qed.

Example py_int_neg : py_int "-3" = Ok (-3).
Proof. reflexivity. Qed.

Example py_int_two : exists m, py_int "two" = Raise (ValueError m).
Proof. eexists; reflexivity. Qed.

Example py_split_ex : py_split "  web   nginx 2 " = ["web"; "nginx"; "2"].
Proof. reflexivity. Qed.

Example re_search_ex :
  re_search "name=" not_comma_space "name=, name=lw, image=nginx" = Some "lw".
Proof. reflexivity. Qed.

Example json_loads_object :
  json_loads (dq "{'name': 'web', 'image': 'nginx:1.25', 'replicas': 3}")
  = Some (py_dict [("name", PyStr "web"); ("image", PyStr "nginx:1.25");
                   ("replicas", PyInt 3)]).
Proof. reflexivity. Qed.

Example json_loads_nested :
  json_loads (dq " [1, -2.5e3, {'a': [], 'a': null}, 'x\ny', true] ")
  = Some (PyList [PyInt 1; PyFloat "-2.5e3"; py_dict [("a", PyNone)];
                  PyStr (String "x" (String (ascii_of_N 10) "y")); PyBool true]).
Proof. reflexivity. Qed.

(** A key written with an escape above 255 is not the key [image], and a
    pair of surrogate escapes is one code point. *)
Example json_loads_wide_key :
  let s := dq "{'\u0169mage': 'x', 'name': 'web'}" in
  json_loads s
  = Some (PyDict [(Wide [361; 109; 97; 103; 101]%N, PyStr "x");
                  (Latin "name", PyStr "web")]) /\
  parse_tool_input s = Ok (PyStr "web", PyNone, PyInt 1).
Proof. vm_compute. repeat split. Qed.

Example json_loads_surrogates :
  json_loads (dq "'\ud83d\ude00 \ud83d \u00e9'")
  = Some (PyStr (Wide [128512; 32; 55357; 32; 233]%N)).
Proof. reflexivity. Qed.

Example json_loads_key_value : json_loads "name=lw, image=nginx" = None.
Proof. reflexivity. Qed.

Example json_loads_words : json_loads "web nginx 2" = None.
Proof. reflexivity. Qed.

Example json_loads_extra : json_loads "01" = None.
Proof. reflexivity. Qed.

Example json_loads_trailing_comma : json_loads "[1,]" = None.
Proof. reflexivity. Qed.

Example demo_run :
  CreateDeploymentTool_run Demo.flow_dump Demo.temp_name Demo.kubectl
    "web nginx 2" Demo.world0
  = (Ok "deployment.apps configured",
     {| files := ∅;
        cluster := [Demo.flow_dump (deployment (PyStr "web") (PyStr "nginx")
                      (PyInt 2) (PyStr "default") (PyInt 80))];
        spawned := [["kubectl"; "apply"; "-f"; Demo.temp_name ∅]] |}).
Proof. vm_compute. reflexivity. Qed.

Example run_number :
  CreateDeploymentTool_run Demo.flow_dump Demo.temp_name Demo.kubectl
    "3" Demo.world0
  = (Raise AttributeError, Demo.world0).
Proof. reflexivity. Qed.

Example run_string :
  CreateDeploymentTool_run Demo.flow_dump Demo.temp_name Demo.kubectl
    (dq "'abc'") Demo.world0
  = (Raise AttributeError, Demo.world0).
Proof. reflexivity. Qed.

(** The JSON text without image, run against the stand-in cluster: the
    call succeeds and the cluster has received a manifest whose image is
    null. *)
Example run_json_without_image :
  let out :=
    CreateDeploymentTool_run Demo.flow_dump Demo.temp_name Demo.kubectl
      (dq "{'name': 'web'}") Demo.world0 in
  fst out = Ok "deployment.apps configured" /\
  cluster (snd out)
  = [Demo.flow_dump (deployment (PyStr "web") PyNone (PyInt 1)
       (PyStr "default") (PyInt 80))] /\
  spawned (snd out) = [["kubectl"; "apply"; "-f"; "/tmp/tmp.yaml"]].
Proof. vm_compute. repeat split. Qed.

(** The stand-in for [NamedTemporaryFile] never takes the name of a file
    that exists. *)
Lemma demo_temp_name_fresh (fs : gmap string string) :
  fs !! Demo.temp_name fs = None.
Proof. apply fresh_string_fresh. Qed.

(** The empty JSON object, run against the stand-in cluster: the call
    succeeds and the cluster has received a manifest whose name and image
    are null. *)
Example run_empty_object :
  let out :=
    CreateDeploymentTool_run Demo.flow_dump Demo.temp_name Demo.kubectl
      "{}" Demo.world0 in
  fst out = Ok "deployment.apps configured" /\
  cluster (snd out)
  = [Demo.flow_dump (deployment PyNone PyNone (PyInt 1)
       (PyStr "default") (PyInt 80))] /\
  spawned (snd out) = [["kubectl"; "apply"; "-f"; "/tmp/tmp.yaml"]].
Proof. vm_compute. repeat split. Qed.

(** The three formats on five inputs. *)
Example parse_tool_input_examples :
  parse_tool_input (dq "{'name': 'web', 'image': 'nginx'}")
  = Ok (PyStr "web", PyStr "nginx", PyInt 1) /\
  parse_tool_input "name=lw, image=nginx, replicas=2"
  = Ok (PyStr "lw", PyStr "nginx", PyInt 2) /\
  parse_tool_input "name=lw"
  = Raise (ValueError "Could not parse name and image from input") /\
  parse_tool_input "web nginx 2" = Ok (PyStr "web", PyStr "nginx", PyInt 2) /\
  parse_tool_input "web"
  = Raise (ValueError
      "Invalid input format. Expected: name image [replicas] or JSON or name=value, image=value").
Proof. vm_compute. repeat split. Qed.

(** ** Instances of the theorems *)

Lemma C3_witness :
  exists (n i : string) z,
    PyStr "web" = PyStr n /\ PyStr "nginx" = PyStr i /\ PyInt 2 = PyInt z /\
    n <> EmptyString /\ i <> EmptyString /\
    (contains "=" "name=web, image=nginx, replicas=2" = true -> 0 <= z).
Proof.
  apply (proj2 (C3_generation_total_text_formats_nonempty
                  (Cluster := list string) Demo.flow_dump)
           "name=web, image=nginx, replicas=2"); reflexivity.
Defined.

Lemma C6_witness :
  let manifest :=
    Demo.flow_dump (deployment (PyStr "web") (PyStr "nginx") (PyInt 2)
      (PyStr "default") (PyInt 80)) in
  parse_tool_input "web nginx 2" = Ok (PyStr "web", PyStr "nginx", PyInt 2) /\
  CreateDeploymentTool_run Demo.flow_dump Demo.temp_name Demo.kubectl
    "web nginx 2" Demo.world0
  = (Ok "deployment.apps configured",
     {| files := ∅;
        cluster := [manifest];
        spawned := [["kubectl"; "apply"; "-f"; "/tmp/tmp.yaml"]] |}).
Proof.
  intros manifest. split; [reflexivity|].
  etransitivity.
  - apply (C6_applies_blindly Demo.flow_dump Demo.temp_name Demo.kubectl
             "web nginx 2" (PyStr "web") (PyStr "nginx") (PyInt 2) Demo.world0).
    reflexivity.
  - vm_compute. reflexivity.
Defined.

Lemma C8_witness :
  json_loads "[1,2]" = Some (PyList [PyInt 1; PyInt 2]) /\
  CreateDeploymentTool_run Demo.flow_dump Demo.temp_name Demo.kubectl
    "[1,2]" Demo.world0
  = (Raise AttributeError, Demo.world0).
Proof.
  split; [reflexivity|].
  apply (C8_non_object_json_raises Demo.flow_dump Demo.temp_name Demo.kubectl
           "[1,2]" (PyList [PyInt 1; PyInt 2]) Demo.world0).
  - reflexivity.
  - intros pairs. discriminate.
Defined.

Lemma C9_witness :
  exists text w',
    apply_yaml Demo.temp_name Demo.kubectl_refuses "kind: Deployment" Demo.world0
    = (Ok text, w') /\
    (1 = 0 -> text = "") /\
    (1 <> 0 -> text = "error: unable to connect to the server") /\
    files w' !! "/tmp/tmp.yaml" = None.
Proof.
  apply (C9_apply_yaml_returns_text Demo.temp_name Demo.kubectl_refuses
           "kind: Deployment" Demo.world0
           {| returncode := 1; stdout := "";
              stderr := "error: unable to connect to the server" |} ∅ []).
  reflexivity.
Defined.

Lemma C10_witness :
  PyInt 1 = PyInt 1 /\
  CreateDeploymentTool_run Demo.flow_dump Demo.temp_name Demo.kubectl
    "name=web, image=nginx, replicas=-3" Demo.world0
  = apply_yaml Demo.temp_name Demo.kubectl
      (Demo.flow_dump (deployment (PyStr "web") (PyStr "nginx") (PyInt 1)
         (PyStr "default") (PyInt 80))) Demo.world0.
Proof.
  apply (C10_replicas_default Demo.flow_dump Demo.temp_name Demo.kubectl
           "name=web, image=nginx, replicas=-3").
  - reflexivity.
  - right. left. split; [reflexivity|]. split; [reflexivity|].
    apply re_search_None. reflexivity.
Defined.

(** ** Inputs on which the claims as written fail *)

(** C3.  Negative replicas (whitespace format and JSON) and an empty name
    (JSON) reach manifest generation; nothing is raised, and the manifest is
    applied. *)
Lemma C3_counterexample :
  parse_tool_input "web nginx -3" = Ok (PyStr "web", PyStr "nginx", PyInt (-3)) /\
  parse_tool_input (dq "{'name': '', 'image': 'nginx', 'replicas': -3}")
  = Ok (PyStr "", PyStr "nginx", PyInt (-3)) /\
  let out :=
    CreateDeploymentTool_run Demo.flow_dump Demo.temp_name Demo.kubectl
      (dq "{'name': '', 'image': 'nginx', 'replicas': -3}") Demo.world0 in
  fst out = Ok "deployment.apps configured" /\
  cluster (snd out)
  = [Demo.flow_dump (deployment (PyStr "") (PyStr "nginx") (PyInt (-3))
       (PyStr "default") (PyInt 80))].
Proof. vm_compute. repeat split. Qed.

(** C10.  In the key=value format the value [3.5] is not an integer
    literal, and it is not ignored: replicas is 3, not 1.  The pattern is
    searched in the whole text: with [replicas=-3] the digits after
    [maxreplicas=] are taken, and with no replicas field at all the digits
    after a [replicas=] inside the name. *)
Lemma C10_counterexample :
  (let s := "name=web, image=nginx, replicas=3.5" in
   json_loads s = None /\ contains "=" s = true /\
   int_literal "3.5" = None /\
   parse_tool_input s = Ok (PyStr "web", PyStr "nginx", PyInt 3)) /\
  parse_tool_input "name=web, image=nginx, replicas=-3, maxreplicas=7"
  = Ok (PyStr "web", PyStr "nginx", PyInt 7) /\
  parse_tool_input "name=replicas=5, image=nginx"
  = Ok (PyStr "replicas=5", PyStr "nginx", PyInt 5).
Proof. vm_compute. repeat split. Qed.

(** ** Instances of the further theorems *)

Lemma key_value_round_trip_witness :
  parse_tool_input ("name=" +:+ "web" +:+ ", image=" +:+ "nginx:1.25")
  = Ok (PyStr "web", PyStr "nginx:1.25", PyInt 1) /\
  exists z,
    py_int "3" = Ok z /\ 0 <= z /\
    parse_tool_input
      ("name=" +:+ "web" +:+ ", image=" +:+ "nginx:1.25" +:+ ", replicas=" +:+ "3")
    = Ok (PyStr "web", PyStr "nginx:1.25", PyInt z).
Proof.
  assert (H := key_value_round_trip "web" "nginx:1.25"
                 ltac:(discriminate) eq_refl eq_refl
                 ltac:(discriminate) eq_refl eq_refl).
  split; [apply H|].
  apply (proj1 (proj2 H "3" ltac:(discriminate) eq_refl)).
  unfold int_max_str_digits. simpl. lia.
Defined.

Lemma words_round_trip_witness :
  parse_tool_input (" " +:+ "web" +:+ "   " +:+ "nginx" +:+ "  ")
  = Ok (PyStr "web", PyStr "nginx", PyInt 1).
Proof.
  apply (words_round_trip " " "web" "   " "nginx" "  ");
    try reflexivity; discriminate.
Defined.

Lemma text_format_tokens_witness :
  all_in (fun c => negb (isspace c)) "web" = true /\
  all_in (fun c => negb (isspace c)) "nginx" = true /\
  (contains "=" "name=web,image=nginx" = true ->
   contains "," "web" = false /\ contains "," "nginx" = false).
Proof.
  apply (text_format_tokens "name=web,image=nginx" "web" "nginx" (PyInt 1));
    reflexivity.
Defined.

Lemma apply_yaml_leaks_temp_file_witness :
  exists w',
    apply_yaml Demo.temp_name
      (fun _ _ (c : list string) => (Raise FileNotFoundError, c))
      "kind: Deployment" Demo.world0
    = (Raise FileNotFoundError, w') /\
    files w' !! Demo.temp_name (files Demo.world0) = Some "kind: Deployment" /\
    cluster w' = [].
Proof.
  apply (apply_yaml_leaks_temp_file Demo.temp_name
           (fun _ _ (c : list string) => (Raise FileNotFoundError, c))
           "kind: Deployment" Demo.world0 FileNotFoundError []).
  reflexivity.
Defined.

Lemma run_effects_witness :
  (exists msg,
     CreateDeploymentTool_run Demo.flow_dump Demo.temp_name Demo.kubectl
       "hello" Demo.world0
     = (Raise (ValueError msg), Demo.world0)) \/
  (exists (n i : string) z,
     parse_tool_input "hello" = Ok (PyStr n, PyStr i, PyInt z) /\
     spawned (snd (CreateDeploymentTool_run Demo.flow_dump Demo.temp_name
                     Demo.kubectl "hello" Demo.world0))
     = (spawned Demo.world0
        ++ [["kubectl"; "apply"; "-f"; Demo.temp_name (files Demo.world0)]])%list).
Proof.
  apply (proj1 (run_effects Demo.flow_dump Demo.temp_name Demo.kubectl
                  "hello" Demo.world0)).
  reflexivity.
Defined.

Lemma apply_yaml_keeps_files_witness :
  let w := {| files := {["/etc/hosts" := "127.0.0.1 localhost"]};
              cluster := ([] : list string); spawned := [] |} in
  let written : gmap string string :=
    <["/root/.kube/cache/discovery" := "v1"]> ∅ in
  exists text w',
    apply_yaml Demo.temp_name Demo.kubectl_caching "kind: Deployment" w
    = (Ok text, w') /\
    files w' = delete (Demo.temp_name (files w)) (written ∪ files w) /\
    forall path,
      written !! path = None -> files w' !! path = files w !! path.
Proof.
  intros w written.
  apply (apply_yaml_keeps_files Demo.temp_name Demo.kubectl_caching
           "kind: Deployment" w
           {| returncode := 0; stdout := "deployment.apps configured";
              stderr := "" |} written ["kind: Deployment"]).
  - apply demo_temp_name_fresh.
  - vm_compute. reflexivity.
Defined.

Lemma exit_recognised_witness :
  main_loop
    (CreateDeploymentTool_run Demo.flow_dump Demo.temp_name Demo.kubectl)
    1 [("  " +:+ "QuIt" +:+ " "); "web nginx"] [Banner] Demo.world0
  = (Exited, ([Banner] ++ [Prompt])%list, Demo.world0).
Proof.
  apply (exit_recognised
           (CreateDeploymentTool_run Demo.flow_dump Demo.temp_name Demo.kubectl)
           "  " "QuIt" " " 0 ["web nginx"] [Banner] Demo.world0);
    [reflexivity | reflexivity | apply (bool_decide_unpack _); exact I].
Defined.

Lemma loop_until_exit_witness :
  let agent :=
    CreateDeploymentTool_run Demo.flow_dump Demo.temp_name Demo.kubectl in
  main_loop agent 5 (["web nginx 2"; "hello"] ++ " EXIT" :: ["name=a, image=b"])
    [Banner] Demo.world0
  = (Exited,
     ((answers agent ["web nginx 2"; "hello"] [Banner] Demo.world0).1
      ++ [Prompt])%list,
     (answers agent ["web nginx 2"; "hello"] [Banner] Demo.world0).2).
Proof.
  intros agent.
  apply (loop_until_exit agent ["web nginx 2"; "hello"] " EXIT"
           ["name=a, image=b"] 5 [Banner] Demo.world0).
  - repeat apply Forall_cons; try apply Forall_nil;
      apply (bool_decide_unpack _); exact I.
  - apply (bool_decide_unpack _). exact I.
  - simpl. lia.
Defined.

Lemma loop_without_exit_witness :
  let agent :=
    CreateDeploymentTool_run Demo.flow_dump Demo.temp_name Demo.kubectl in
  (main_loop agent 3 ["hello"] [Banner] Demo.world0).1.1 = Running /\
  ((length ["hello"] <= 3)%nat ->
   main_loop agent 3 ["hello"] [Banner] Demo.world0
   = (Running,
      ((answers agent ["hello"] [Banner] Demo.world0).1
       ++ concat (replicate (3 - length ["hello"]) [Prompt; ErrorSays EOFError]))%list,
      (answers agent ["hello"] [Banner] Demo.world0).2)).
Proof.
  intros agent.
  apply (loop_without_exit agent ["hello"] 3 [Banner] Demo.world0).
  repeat apply Forall_cons; try apply Forall_nil;
    apply (bool_decide_unpack _); exact I.
Defined.

(** The program on four lines: a deployment, a line the tool refuses, an
    exit command, and a line that is never read. *)
Example main_session :
  main (CreateDeploymentTool_run Demo.flow_dump Demo.temp_name Demo.kubectl)
    10 ["web nginx 2"; "hello"; " EXIT"; "name=a, image=b"] Demo.world0
  = (Exited,
     [Banner; Prompt; AgentSays "deployment.apps configured";
      Prompt;
      ErrorSays (AgentError (ValueError
        "Invalid input format. Expected: name image [replicas] or JSON or name=value, image=value"));
      Prompt],
     {| files := ∅;
        cluster := [Demo.flow_dump (deployment (PyStr "web") (PyStr "nginx")
                      (PyInt 2) (PyStr "default") (PyInt 80))];
        spawned := [["kubectl"; "apply"; "-f"; "/tmp/tmp.yaml"]] |}).
Proof. vm_compute. reflexivity. Qed.

(** At the end of the input the loop goes on, one report a turn. *)
Example main_end_of_input :
  main (CreateDeploymentTool_run Demo.flow_dump Demo.temp_name Demo.kubectl)
    2 [] Demo.world0
  = (Running,
     [Banner; Prompt; ErrorSays EOFError; Prompt; ErrorSays EOFError],
     Demo.world0).
Proof. reflexivity. Qed.

Lemma json_round_trip_witness :
  parse_tool_input
    (dq "{'name': '" +:+ "web" +:+ dq "', 'image': '" +:+ "nginx:1.25" +:+ dq "'}")
  = Ok (PyStr "web", PyStr "nginx:1.25", PyInt 1).
Proof.
  apply (json_round_trip "web" "nginx:1.25"); reflexivity.
Defined.

Lemma key_value_other_order_witness :
  parse_tool_input ("image=" +:+ "nginx" +:+ ", name=" +:+ "web")
  = Ok (PyStr "web", PyStr "nginx", PyInt 1).
Proof.
  apply (key_value_other_order "web" "nginx"); try reflexivity; discriminate.
Defined.
